(** * mic-drop-results: the avatar pipeline

    A shallow embedding of the avatar acquisition code of
    [src/mic_drop_results] ([client.py], [utils.py]) and the properties the
    specification states about it.

    Python strings are modelled by [string] (the ASCII fragment), Python
    [int] by [Z], durations in seconds by [Q], a parsed JSON body by a
    [gmap string json], the file system by a [gmap string (list byte)]
    keyed by the path string handed to OpenCV.  Code with effects (HTTP
    requests, [time.sleep], [print], OpenCV file access) runs in a small
    state-and-exception monad whose state records every effect in a log. *)

From Stdlib Require Import ZArith QArith List Ascii String Lia Bool.
From Stdlib.Strings Require Import Byte.
From Stdlib Require Import Lqa.
From stdpp Require Import gmap strings.

Local Open Scope Z_scope.
Local Open Scope string_scope.
Local Open Scope list_scope.

(** ** Characters and strings as Python uses them *)

Module PyStr.

Definition chars (s : string) : list ascii := list_ascii_of_string s.

Definition is_digit (c : ascii) : bool :=
  let n := nat_of_ascii c in (Nat.leb 48 n && Nat.leb n 57)%bool.

(** [Py_ISSPACE]: space, and the control characters 9 to 13. *)
Definition is_space (c : ascii) : bool :=
  let n := nat_of_ascii c in
  (Nat.eqb n 32 || (Nat.leb 9 n && Nat.leb n 13))%bool.

(** One character of [str.lower()]. *)
Definition lower_char (c : ascii) : ascii :=
  let n := nat_of_ascii c in
  if (Nat.leb 65 n && Nat.leb n 90)%bool then ascii_of_nat (n + 32) else c.

(** [s.lower()] *)
Fixpoint lower (s : string) : string :=
  match s with
  | EmptyString => EmptyString
  | String c r => String (lower_char c) (lower r)
  end.

(** [sub in s] for two strings. *)
Fixpoint contains (sub s : string) : bool :=
  (String.prefix sub s ||
   match s with
   | EmptyString => false
   | String _ r => contains sub r
   end)%bool.

(** [s[n:]] for a non-negative constant [n]. *)
Fixpoint drop_str (n : nat) (s : string) : string :=
  match n, s with
  | O, _ => s
  | S _, EmptyString => EmptyString
  | S m, String _ r => drop_str m r
  end.

(** [s[:n]] for a non-negative [n]. *)
Fixpoint take_str (n : nat) (s : string) : string :=
  match n, s with
  | O, _ => EmptyString
  | S _, EmptyString => EmptyString
  | S m, String c r => String c (take_str m r)
  end.

(** [s.rfind('.')]: the index of the last dot, if there is one. *)
Fixpoint rfind_dot (s : string) : option nat :=
  match s with
  | EmptyString => None
  | String c r =>
      match rfind_dot r with
      | Some i => Some (S i)
      | None => if Ascii.eqb c "." then Some O else None
      end
  end.

(** [str(n)] for an [int]. *)
Definition digit_char (d : Z) : ascii := ascii_of_nat (48 + Z.to_nat d).

Fixpoint pos_digits (fuel : nat) (n : Z) (acc : string) : string :=
  match fuel with
  | O => acc
  | S f =>
      let acc' := String (digit_char (n mod 10)) acc in
      if (n <? 10)%Z then acc' else pos_digits f (n / 10) acc'
  end.

Definition str_of_nonneg (n : Z) : string :=
  pos_digits (S (Z.to_nat (Z.log2 n))) n EmptyString.

Definition str_of_int (n : Z) : string :=
  if (n <? 0)%Z then String "-" (str_of_nonneg (- n)) else str_of_nonneg n.

End PyStr.

(** ** [float(str)]: which strings Python accepts

    [float] strips white space, checks and removes underscores (allowed
    only between two digits), and then the whole rest has to be a decimal
    literal, [inf], [infinity] or [nan] with an optional sign.  The value
    is returned as the parsed literal; how it rounds to a double plays no
    role in this program. *)

Module PyFloat.
Import PyStr.

Inductive literal :=
  | Finite (neg : bool) (int_part frac_part : list ascii)
           (exponent : option (bool * list ascii))
  | Infinity (neg : bool)
  | NaN.

Fixpoint lstrip (l : list ascii) : list ascii :=
  match l with
  | c :: r => if is_space c then lstrip r else l
  | [] => []
  end.

Definition strip (l : list ascii) : list ascii :=
  rev (lstrip (rev (lstrip l))).

(** The underscore pass: [prev] is the previous character, if any.  An
    underscore has to follow a digit and to be followed by one. *)
Fixpoint remove_underscores (prev : option ascii) (l : list ascii)
  : option (list ascii) :=
  match l with
  | [] =>
      match prev with
      | Some p => if Ascii.eqb p "_" then None else Some []
      | None => Some []
      end
  | c :: r =>
      if Ascii.eqb c "_" then
        match prev with
        | Some p => if is_digit p then remove_underscores (Some c) r else None
        | None => None
        end
      else
        let bad :=
          match prev with
          | Some p => (Ascii.eqb p "_" && negb (is_digit c))%bool
          | None => false
          end in
        if bad then None
        else option_map (cons c) (remove_underscores (Some c) r)
  end.

(** The longest run of digits at the front, and what follows it. *)
Fixpoint span_digits (l : list ascii) : list ascii * list ascii :=
  match l with
  | c :: r =>
      if is_digit c then let '(d, rest) := span_digits r in (c :: d, rest)
      else ([], l)
  | [] => ([], [])
  end.

Definition take_sign (l : list ascii) : bool * list ascii :=
  match l with
  | c :: r =>
      if Ascii.eqb c "-" then (true, r)
      else if Ascii.eqb c "+" then (false, r)
      else (false, l)
  | [] => (false, [])
  end.

(** The exponent is read only when it has a digit; otherwise the literal
    ends before the [e]. *)
Definition take_exponent (l : list ascii)
  : option (bool * list ascii) * list ascii :=
  match l with
  | c :: r =>
      if (Ascii.eqb c "e" || Ascii.eqb c "E")%bool then
        let '(neg, r1) := take_sign r in
        match span_digits r1 with
        | ([], _) => (None, l)
        | (ds, rest) => (Some (neg, ds), rest)
        end
      else (None, l)
  | [] => (None, [])
  end.

(** A decimal literal at the front of [l] (after the sign). *)
Definition take_decimal (neg : bool) (l : list ascii)
  : option (literal * list ascii) :=
  let '(ip, r1) := span_digits l in
  let '(fp, r2) :=
    match r1 with
    | c :: r =>
        if Ascii.eqb c "." then span_digits r else ([], r1)
    | [] => ([], [])
    end in
  match ip, fp with
  | [], [] => None
  | _, _ =>
      let '(ex, r3) := take_exponent r2 in
      Some (Finite neg ip fp ex, r3)
  end.

Definition same_letters (word : string) (l : list ascii) : bool :=
  String.eqb (string_of_list_ascii (map lower_char l)) word.

Definition inf_or_nan (neg : bool) (l : list ascii) : option literal :=
  if (same_letters "inf" l || same_letters "infinity" l)%bool
  then Some (Infinity neg)
  else if same_letters "nan" l then Some NaN
  else None.

(** [float(s)]: [None] stands for [ValueError]. *)
Definition float (s : string) : option literal :=
  match remove_underscores None (strip (chars s)) with
  | None => None
  | Some l =>
      let '(neg, body) := take_sign l in
      match take_decimal neg body with
      | Some (v, []) => Some v
      | Some (_, _ :: _) => None
      | None => inf_or_nan neg body
      end
  end.

End PyFloat.

(** ** [utils.is_number] *)

(** [try: float(val); return True / except ValueError: return False] *)
Definition is_number (val : string) : bool :=
  match PyFloat.float val with
  | Some _ => true
  | None => false
  end.

(** ** Paths ([pathlib], Windows flavour)

    The program is a Windows program ([ctypes.windll], back slashes in
    [constants.py]).  A path is its anchor (drive and root) and the
    components below it. *)

Module PyPath.
Import PyStr.

Record Path := mkPath { anchor : string; parts : list string }.

Definition is_sep (c : ascii) : bool :=
  (Ascii.eqb c "\" || Ascii.eqb c "/")%bool.

(** Empty components and [.] are dropped when a segment is parsed. *)
Definition keep (cur : string) (l : list string) : list string :=
  if (String.eqb cur "" || String.eqb cur ".")%bool then l else cur :: l.

Fixpoint components_from (cur s : string) : list string :=
  match s with
  | EmptyString => keep cur []
  | String c r =>
      if is_sep c then keep cur (components_from "" r)
      else components_from (cur +:+ String c "") r
  end.

Definition components (s : string) : list string := components_from "" s.

Definition rooted (s : string) : bool :=
  match s with
  | String c _ => is_sep c
  | EmptyString => false
  end.

(** An argument of [joinpath]: an absolute path, which replaces what is
    to its left, or a segment without a drive. *)
Inductive segment :=
  | Absolute (p : Path)
  | Segment (s : string).

Definition join (p : Path) (a : segment) : Path :=
  match a with
  | Absolute q => q
  | Segment s =>
      if rooted s then mkPath (anchor p) (components s)
      else mkPath (anchor p) (parts p ++ components s)
  end.

(** [p.joinpath] applied to its arguments in order. *)
Definition joinpath (p : Path) (rels : list segment) : Path :=
  fold_left join rels p.

(** [p.name]: the last component, or the empty string. *)
Definition name (p : Path) : string := List.last (parts p) "".

(** [p.stem]: the name without its last suffix. *)
Definition stem (p : Path) : string :=
  let n := name p in
  match rfind_dot n with
  | Some i =>
      if (Nat.ltb 0 i && Nat.ltb i (String.length n - 1))%bool
      then take_str i n else n
  | None => n
  end.

Fixpoint join_with (sep : string) (l : list string) : string :=
  match l with
  | [] => ""
  | [x] => x
  | x :: r => x +:+ sep +:+ join_with sep r
  end.

(** [str(p)] *)
Definition to_str (p : Path) : string :=
  anchor p +:+ join_with "\" (parts p).

End PyPath.

(** ** Python values, exceptions and results *)

(** A JSON value as [json.loads] returns it.  A [float] is kept as the
    rational it is equal to; [inf] and [nan], which [json.loads] gives for
    a literal too large for a double and for [Infinity] and [NaN], are left
    out. *)
#[local] Unset Elimination Schemes.
Inductive json :=
  | JNull
  | JBool (b : bool)
  | JInt (n : Z)
  | JFloat (q : Q)
  | JStr (s : string)
  | JArr (l : list json)
  | JObj (l : list (string * json)).
#[local] Set Elimination Schemes.

(** The exceptions this code raises or lets through.  [InvalidTokenError],
    [UnknownUserError] and [DiscordAPIError] come from the program's
    [exceptions] module and carry their two constructor arguments. *)
Inductive exn :=
  | ConnectionError
  | InvalidTokenError (api_token : string) (body : gmap string json)
  | UnknownUserError (uid : string) (body : gmap string json)
  | DiscordAPIError (api_token : string) (body : gmap string json)
  | KeyError (key : string)
  | AttributeError
  | TypeError
  | ValueError
  | OverflowError
  | RecursionError
  | Cv2Error
  | URLError
  | RequestsConnectionError
  | RequestsReadTimeout
  | OtherError (what : string).

Inductive result (A : Type) :=
  | Ok (a : A)
  | Raise (e : exn).
Arguments Ok {A} a.
Arguments Raise {A} e.

(** ** [utils.get_avatar_dir] *)

Section CachePaths.
Import PyStr PyPath.

(** [MAIN_DIR] is not defined in [constants.py]; [AVATAR_DIR] is built
    from the location of the running file and is absolute.  Both are
    taken as given. *)
Variable MAIN_DIR : Path.
Variable AVATAR_DIR : Path.

(** [abs_dir]: [MAIN_DIR.joinpath] of the arguments. *)
Definition abs_dir (rels : list segment) : Path := joinpath MAIN_DIR rels.

Definition get_avatar_dir (uid : option string) (og_dir : option Path)
  (effect : Z) : result Path :=
  match uid with
  | Some u =>
      Ok (abs_dir [Absolute AVATAR_DIR;
                   Segment (str_of_int effect +:+ "_" +:+ u +:+ ".png")])
  | None =>
      match og_dir with
      | None => Raise ValueError
      | Some og =>
          if String.eqb (stem og) (name og) then Raise ValueError
          else
            Ok (abs_dir [Absolute AVATAR_DIR;
                         Segment (str_of_int effect +:+ "_"
                                  +:+ drop_str 2 (name og))])
      end
  end.

(** Modelled from the spec: [utils.get_avatar_path], which [client.py]
    imports and [utils.py] does not define; the downloader "writes the
    decoded bitmap to the effect-0 cache path for that identifier". *)
Definition get_avatar_path (uid : string) : result Path :=
  get_avatar_dir (Some uid) None 0.

End CachePaths.

(** ** The world the client runs in *)

Inductive event :=
  | EvGet (url : string) (headers : list (string * string)) (timeout : Q)
  | EvSleep (seconds : Q)
  | EvPrint (text : string)
  | EvUrlopen (url : string) (headers : list (string * string)) (timeout : Q)
  | EvImread (path : string)
  | EvImwrite (path : string).

(** The clock, the effects so far (latest first, each with the time it
    started at), the number of HTTP requests sent, and the files. *)
Record state := mkState {
  now : Q;
  log : list (Q * event);
  sent : nat;
  fs : gmap string (list byte)
}.

(** What [requests.get] gives back: a response, whose [json()] is a
    dictionary or raises, or an exception of the transport. *)
Inductive reply :=
  | Response (json_body : result (gmap string json))
  | Failed (e : exn).

Inductive imread_flag := IMREAD_UNCHANGED | IMREAD_COLOR.

(** The services outside the program: the two HTTP endpoints (the reply
    may depend on how many requests went before), the image codec of
    OpenCV, whether the operating system lets a file be written, and
    [str] on the JSON values whose rendering is not modelled. *)
Record services (image : Type) := mkServices {
  api : nat -> string -> list (string * string) -> reply;
  cdn : nat -> string -> list (string * string) -> result (list byte);
  decode : imread_flag -> list byte -> option image;
  encoder : string -> option (image -> list byte);
  bgr2gray : image -> image;
  writable : string -> bool;
  str_other : json -> string
}.
Arguments api {image}.
Arguments cdn {image}.
Arguments decode {image}.
Arguments encoder {image}.
Arguments bgr2gray {image}.
Arguments writable {image}.
Arguments str_other {image}.

(** *** The monad: state, and a result or an exception *)

Definition M (A : Type) : Type := state -> result A * state.

Definition ret {A} (a : A) : M A := fun s => (Ok a, s).

Definition raise {A} (e : exn) : M A := fun s => (Raise e, s).

Definition bind {A B} (m : M A) (k : A -> M B) : M B :=
  fun s =>
    match m s with
    | (Ok a, s') => k a s'
    | (Raise e, s') => (Raise e, s')
    end.

(** [try: m / except: h] where [h] decides by the exception. *)
Definition try_except {A} (m : M A) (h : exn -> M A) : M A :=
  fun s =>
    match m s with
    | (Ok a, s') => (Ok a, s')
    | (Raise e, s') => h e s'
    end.

Definition of_result {A} (r : result A) : M A :=
  match r with
  | Ok a => ret a
  | Raise e => raise e
  end.

Declare Scope py_scope.
Delimit Scope py_scope with py.
Notation "x <- m ;; k" := (bind m (fun x => k))
  (at level 100, m at next level, right associativity) : py_scope.
Notation "m ;;; k" := (bind m (fun _ => k))
  (at level 100, right associativity) : py_scope.

Definition record (e : event) (s : state) : state :=
  mkState (now s) ((now s, e) :: log s) (sent s) (fs s).

Definition emit (e : event) : M unit := fun s => (Ok tt, record e s).

(** *** Library calls *)

Section Library.
Context {image : Type} (W : services image).
Import PyStr.
Local Open Scope py_scope.

(** The delays [time.sleep] can convert: in nanoseconds, rounded away
    from zero, the delay has to fit the 64-bit C time type, that is to lie
    between [-2^63] and [2^63 - 1] nanoseconds (CPython 3.11).  For an
    [int] this is exact; for a [float] CPython makes the test on doubles,
    which can differ from the test on the rational within the rounding of
    a double at the two ends. *)
Definition sleep_min : Q := (-9223372036854775808) # 1000000000.
Definition sleep_max : Q := 9223372036854775807 # 1000000000.

Definition in_sleep_range (d : Q) : bool :=
  (Qle_bool sleep_min d && Qle_bool d sleep_max)%bool.

(** [time.sleep(d)] on a number: the delay is converted first, and one
    out of range is an [OverflowError] whatever its sign; then a negative
    one is a [ValueError]. *)
Definition sleep_for (d : Q) : M unit :=
  if in_sleep_range d then
    if Qle_bool 0 d then
      fun s => (Ok tt, mkState (now s + d) ((now s, EvSleep d) :: log s)
                               (sent s) (fs s))
    else raise ValueError
  else raise OverflowError.

(** The number of seconds a JSON value stands for ([bool] is an [int] in
    Python). *)
Definition as_seconds (v : json) : option Q :=
  match v with
  | JInt n => Some (inject_Z n)
  | JFloat q => Some q
  | JBool b => Some (if b then 1%Q else 0%Q)
  | JNull | JStr _ | JArr _ | JObj _ => None
  end.

(** [time.sleep(v)]: anything that is not a number is a [TypeError]. *)
Definition time_sleep (v : json) : M unit :=
  match as_seconds v with
  | Some d => sleep_for d
  | None => raise TypeError
  end.

Definition count_request (s : state) : state :=
  mkState (now s) (log s) (S (sent s)) (fs s).

(** [requests.get(url, headers=headers, timeout=timeout)] *)
Definition requests_get (url : string) (headers : list (string * string))
  (timeout : Q) : M (result (gmap string json)) :=
  fun s =>
    let s' := count_request (record (EvGet url headers timeout) s) in
    match api W (sent s) url headers with
    | Response j => (Ok j, s')
    | Failed e => (Raise e, s')
    end.

(** [urlopen(Request(url, headers=headers), timeout=timeout).read()] *)
Definition urlopen_read (url : string) (headers : list (string * string))
  (timeout : Q) : M (list byte) :=
  fun s =>
    let s' := count_request (record (EvUrlopen url headers timeout) s) in
    (cdn W (sent s) url headers, s').

(** [cv2.imdecode(buf, -1)]: an empty buffer is an error, bytes that are
    not an image give [None]. *)
Definition cv2_imdecode (buf : list byte) : M (option image) :=
  match buf with
  | [] => raise Cv2Error
  | _ :: _ => ret (decode W IMREAD_UNCHANGED buf)
  end.

(** [cv2.imread(path)]: [None] when the file is missing or not an image. *)
Definition cv2_imread (path : string) : M (option image) :=
  fun s =>
    (Ok (match fs s !! path with
         | Some bytes => decode W IMREAD_COLOR bytes
         | None => None
         end),
     record (EvImread path) s).

(** [cv2.cvtColor(img, cv2.COLOR_BGR2GRAY)] *)
Definition cv2_cvtColor_gray (img : option image) : M (option image) :=
  match img with
  | Some im => ret (Some (bgr2gray W im))
  | None => raise Cv2Error
  end.

(** [cv2.imwrite(path, img)]: an empty image and a file extension
    without an encoder are errors; a file that cannot be written gives
    [False] and no error. *)
Definition cv2_imwrite (path : string) (img : option image) : M bool :=
  match img with
  | None => raise Cv2Error
  | Some im =>
      match encoder W path with
      | None => raise Cv2Error
      | Some enc =>
          if writable W path then
            fun s =>
              (Ok true,
               mkState (now s) ((now s, EvImwrite path) :: log s) (sent s)
                       (<[path := enc im]> (fs s)))
          else ret false
      end
  end.

(** [str(v)] as [str.format] uses it. *)
Definition py_str (v : json) : string :=
  match v with
  | JNull => "None"
  | JBool true => "True"
  | JBool false => "False"
  | JInt n => str_of_int n
  | JStr s => s
  | JFloat _ | JArr _ | JObj _ => str_other W v
  end.

End Library.

(** ** [client.py] and [utils.artistic_effect] *)

Section Client.
Context {image : Type} (W : services image).
Variable MAIN_DIR : PyPath.Path.
Variable AVATAR_DIR : PyPath.Path.
Import PyStr.
Local Open Scope py_scope.

Definition lookup_url (uid : string) : string :=
  "https://discord.com/api/v9/users/" +:+ uid.

Definition lookup_headers (api_token : string) : list (string * string) :=
  [("Authorization", "Bot " +:+ api_token)].

Definition avatar_link (uid : string) (h : json) (size : Z) : string :=
  "https://cdn.discordapp.com/avatars/" +:+ uid +:+ "/" +:+ py_str W h
  +:+ ".png?size=" +:+ str_of_int size.

(** [response.json()['message'].lower()] *)
Definition message_lower (body : gmap string json) : M string :=
  match body !! "message" with
  | None => raise (KeyError "message")
  | Some (JStr m) => ret (lower m)
  | Some _ => raise AttributeError
  end.

(** [time.sleep(response.json()['retry_after'])] *)
Definition sleep_retry_after (body : gmap string json) : M unit :=
  match body !! "retry_after" with
  | None => raise (KeyError "retry_after")
  | Some v => time_sleep v
  end.

(** [fetch_avatar_url(uid, api_token, size=size)].  The function calls
    itself after a rate limit; [retries] is how many nested calls the
    interpreter's recursion limit still allows, and the call that exceeds
    it raises [RecursionError]. *)
Fixpoint fetch_avatar_url (retries : nat) (uid api_token : string)
  (size : Z) : M (option string) :=
  if negb (is_number uid) then ret None
  else
    response <-
      try_except
        (requests_get W (lookup_url uid) (lookup_headers api_token) 10)
        (fun e =>
           match e with
           | RequestsConnectionError | RequestsReadTimeout =>
               raise ConnectionError
           | _ => raise e
           end) ;;
    body <- of_result response ;;
    match body !! "avatar" with
    | Some h => ret (Some (avatar_link uid h size))
    | None =>
        msg <- message_lower body ;;
        if contains "401: unauthorized" msg then
          raise (InvalidTokenError api_token body)
        else if contains "limit" msg then
          sleep_retry_after body ;;;
          match retries with
          | O => raise RecursionError
          | S r => fetch_avatar_url r uid api_token size
          end ;;;
          ret None
        else if contains "unknown user" msg then
          raise (UnknownUserError uid body)
        else
          raise (DiscordAPIError api_token body)
    end.

(** The truth value of [str | None]. *)
Definition truthy (v : option string) : bool :=
  match v with
  | Some (String _ _) => true
  | Some EmptyString | None => false
  end.

(** The escape sequences [ESC [A] and [ESC [2K] put before the link. *)
Definition cursor_up_clear : string :=
  String (ascii_of_nat 27) "[A" +:+ String (ascii_of_nat 27) "[2K".

Definition cdn_headers : list (string * string) :=
  [("User-Agent", "Mozilla/5.0")].

(** [download_avatar(uid, api_token, size)] *)
Definition download_avatar (retries : nat) (uid api_token : string)
  (size : Z) : M unit :=
  img_path <- of_result (get_avatar_path MAIN_DIR AVATAR_DIR uid) ;;
  try_except
    (sleep_for (1 # 100) ;;;
     avatar_url <- fetch_avatar_url retries uid api_token size ;;
     if truthy avatar_url then
       let url := default "" avatar_url in
       emit (EvPrint (cursor_up_clear +:+ url)) ;;;
       bytes <- urlopen_read W url cdn_headers 10 ;;
       img <- cv2_imdecode W bytes ;;
       cv2_imwrite W (PyPath.to_str img_path) img ;;;
       ret tt
     else ret tt)
    (fun e =>
       match e with
       | URLError => raise ConnectionError
       | _ => raise e
       end).

(** [artistic_effect(og_dir, effect=effect)] *)
Definition artistic_effect (og_dir : PyPath.Path) (effect : Z)
  : M PyPath.Path :=
  if negb (effect =? 0)%Z then
    img <- cv2_imread W (PyPath.to_str og_dir) ;;
    img <- (if (effect =? 1)%Z then cv2_cvtColor_gray W img else ret img) ;;
    fx_dir <- of_result
                (get_avatar_dir MAIN_DIR AVATAR_DIR None (Some og_dir)
                                effect) ;;
    cv2_imwrite W (PyPath.to_str fx_dir) img ;;;
    ret fx_dir
  else ret og_dir.

End Client.

(** ** A concrete world to run the code in *)

Module Demo.

(** The reply to request number [n] (lookups and CDN requests are
    numbered together) is the entry [n] of the script; a refused
    connection once the script is over. *)
Definition scripted (replies : list reply)
  : nat -> string -> list (string * string) -> reply :=
  fun n _ _ => nth n replies (Failed RequestsConnectionError).

Definition scripted_cdn (replies : list (result (list byte)))
  : nat -> string -> list (string * string) -> result (list byte) :=
  fun n _ _ => nth n replies (Raise URLError).

(** Images are their bytes; a file decodes when it starts with the first
    byte of the PNG signature; every file name has an encoder. *)
Definition world (replies : list reply)
  (files : list (result (list byte))) : services (list byte) :=
  mkServices (list byte)
    (scripted replies)
    (scripted_cdn files)
    (fun _ b => match b with x89 :: _ => Some b | _ => None end)
    (fun _ => Some (fun im => im))
    (fun im => im)
    (fun _ => true)
    (fun _ => "?").

Definition start : state := mkState 0 [] 0 ∅.

Definition main_dir : PyPath.Path := PyPath.mkPath "D:\" ["app"].
Definition avatar_dir : PyPath.Path :=
  PyPath.mkPath "D:\" ["app"; "avatars"].

Definition body_of (l : list (string * json)) : gmap string json :=
  list_to_map l.

Definition found : reply :=
  Response (Ok (body_of [("id", JStr "42"); ("avatar", JStr "abc")])).

Definition rate_limited_body : gmap string json :=
  body_of [("message", JStr "You are being rate limited.");
           ("retry_after", JFloat (5 # 2));
           ("global", JBool false)].

Definition unauthorized_body : gmap string json :=
  body_of [("message", JStr "401: Unauthorized"); ("code", JInt 0)].

(** A body whose message carries both markers. *)
Definition unauthorized_limit_body : gmap string json :=
  body_of [("message", JStr "401: Unauthorized (rate limit)");
           ("retry_after", JFloat (5 # 2))].

Definition rate_limited : reply := Response (Ok rate_limited_body).
Definition unauthorized : reply := Response (Ok unauthorized_body).

Definition png_bytes : list byte := [x89; x50; x4e; x47].
Definition not_an_image : list byte := [x3c; x68; x74; x6d; x6c; x3e].

Definition base_path : PyPath.Path :=
  PyPath.mkPath "D:\" ["app"; "avatars"; "0_42.png"].

(** A state in which the effect-0 entry of user 42 is cached. *)
Definition cached : state :=
  mkState 0 [] 0 {[ PyPath.to_str base_path := png_bytes ]}.

(** Four worlds. *)
Definition limited_then_found : services (list byte) :=
  world [rate_limited; found] [Ok png_bytes].

(** Request 0 is the lookup, request 1 goes to the CDN. *)
Definition found_but_garbled : services (list byte) :=
  world [found] [Raise URLError; Ok not_an_image].

Definition token_revoked : services (list byte) :=
  world [unauthorized; found] [].


End Demo.

(** ** Vocabulary of the statements *)

Definition after_get (url : string) (headers : list (string * string))
  (timeout : Q) (s : state) : state :=
  count_request (record (EvGet url headers timeout) s).

Definition after_sleep (d : Q) (s : state) : state :=
  mkState (now s + d) ((now s, EvSleep d) :: log s) (sent s) (fs s).


(** What the caller of a retried call sees of its value. *)
Definition discard {A} (r : result (option A)) : result (option A) :=
  match r with
  | Ok _ => Ok None
  | Raise e => Raise e
  end.

Definition lookup_or_sleep (e : Q * event) : Prop :=
  match snd e with
  | EvGet _ _ _ | EvSleep _ => True
  | _ => False
  end.

(** [s'] comes from [s] by lookups and sleeps only. *)
Definition quiet (s s' : state) : Prop :=
  exists tail,
    log s' = tail ++ log s
    /\ Forall lookup_or_sleep tail
    /\ fs s' = fs s.

(** The pacing delay before every resolution. *)
Definition paced (s : state) : state := after_sleep (1 # 100) s.

(** What is left of the downloader once the link is there. *)
Definition fetch_image {image : Type} (W : services image) (url : string)
  (img_path : PyPath.Path) : M unit :=
  (emit (EvPrint (cursor_up_clear +:+ url)) ;;;
   bytes <- urlopen_read W url cdn_headers 10 ;;
   img <- cv2_imdecode W bytes ;;
   cv2_imwrite W (PyPath.to_str img_path) img ;;;
   ret tt)%py.

(** The exception the downloader lets out for [e]. *)
Definition reported (e : exn) : exn :=
  match e with
  | URLError => ConnectionError
  | _ => e
  end.

(** No character of [s] separates path components. *)
Fixpoint no_sep (s : string) : bool :=
  match s with
  | EmptyString => true
  | String c r => (negb (PyPath.is_sep c) && no_sep r)%bool
  end.

(** A character that does not separate path components. *)
Definition plain (c : ascii) : Prop := PyPath.is_sep c = false.

(** ** More replies and worlds to run the code in *)

Module Cases.
Import Demo.

Definition unknown_user_body : gmap string json :=
  body_of [("message", JStr "Unknown User"); ("code", JInt 10013)].

Definition missing_access_body : gmap string json :=
  body_of [("message", JStr "Missing Access"); ("code", JInt 50001)].

(** A body with neither an avatar nor a message. *)
Definition bare_body : gmap string json := body_of [("code", JInt 0)].

(** A rate limit whose delay is negative. *)
Definition negative_delay_body : gmap string json :=
  body_of [("message", JStr "You are being rate limited.");
           ("retry_after", JFloat (-1 # 2))].

(** A rate limit whose delay is beyond what [time.sleep] can convert. *)
Definition huge_delay_body : gmap string json :=
  body_of [("message", JStr "You are being rate limited.");
           ("retry_after", JFloat (10000000000 # 1))].

(** A rate limit that does not say how long to wait. *)
Definition no_delay_body : gmap string json :=
  body_of [("message", JStr "You are being rate limited.")].


Definition unknown_user : services (list byte) :=
  world [Response (Ok unknown_user_body)] [].

Definition missing_access : services (list byte) :=
  world [Response (Ok missing_access_body)] [].

Definition bare : services (list byte) :=
  world [Response (Ok bare_body)] [].

Definition negative_delay : services (list byte) :=
  world [Response (Ok negative_delay_body); found] [].

Definition huge_delay : services (list byte) :=
  world [Response (Ok huge_delay_body); found] [].

Definition no_delay : services (list byte) :=
  world [Response (Ok no_delay_body); found] [].




(** The lookup times out while reading. *)
Definition slow : services (list byte) :=
  world [Failed RequestsReadTimeout] [].

(** The lookup succeeds and the CDN sends an image. *)
Definition all_fine : services (list byte) :=
  world [found] [Raise URLError; Ok png_bytes].

(** As [all_fine], on a disk that refuses every write. *)
Definition read_only_disk : services (list byte) :=
  mkServices (list byte)
    (scripted [found])
    (scripted_cdn [Raise URLError; Ok png_bytes])
    (fun _ b => match b with x89 :: _ => Some b | _ => None end)
    (fun _ => Some (fun im => im))
    (fun im => im)
    (fun _ => false)
    (fun _ => "?").

(** The lookup succeeds and the CDN cannot be reached. *)
Definition cdn_down : services (list byte) := world [found] [].


Definition link_42 : string :=
  "https://cdn.discordapp.com/avatars/42/abc.png?size=128".

(** A codec whose grey-scale conversion is visible: it reverses the
    bytes. *)
Definition studio : services (list byte) :=
  mkServices (list byte)
    (scripted [])
    (scripted_cdn [])
    (fun _ b => match b with x89 :: _ => Some b | _ => None end)
    (fun _ => Some (fun im => im))
    (fun im => rev im)
    (fun _ => true)
    (fun _ => "?").

Definition grey_path : PyPath.Path :=
  PyPath.mkPath "D:\" ["app"; "avatars"; "1_42.png"].

End Cases.

(** ** More of Python's strings *)

Module PyText.
Import PyStr.

Definition newline : ascii := ascii_of_nat 10.

(** [c in chars] for a character. *)
Fixpoint occurs (c : ascii) (chars : string) : bool :=
  match chars with
  | EmptyString => false
  | String d r => (Ascii.eqb c d || occurs c r)%bool
  end.

(** [s.lstrip(chars)] *)
Fixpoint lstrip_chars (chars s : string) : string :=
  match s with
  | EmptyString => EmptyString
  | String c r => if occurs c chars then lstrip_chars chars r else s
  end.

(** [s.split(sep)] for a separator of one character. *)
Fixpoint split_from (sep : ascii) (cur s : string) : list string :=
  match s with
  | EmptyString => [cur]
  | String c r =>
      if Ascii.eqb c sep then cur :: split_from sep "" r
      else split_from sep (cur +:+ String c "") r
  end.

Definition split (sep : ascii) (s : string) : list string :=
  split_from sep "" s.

(** [s.partition(sep)[0]] for a separator of one character: what is
    before its first occurrence, or all of [s]. *)
Fixpoint before_first (sep : ascii) (s : string) : string :=
  match s with
  | EmptyString => EmptyString
  | String c r =>
      if Ascii.eqb c sep then EmptyString else String c (before_first sep r)
  end.

(** [s[i:j]] for constants [0 <= i <= j]. *)
Definition slice (i j : nat) (s : string) : string :=
  take_str (j - i) (drop_str i s).

(** [sep.join(l)] *)
Definition join (sep : string) (l : list string) : string :=
  PyPath.join_with sep l.

(** [c * n] for a character. *)
Fixpoint times (c : ascii) (n : nat) : string :=
  match n with
  | O => EmptyString
  | S m => String c (times c m)
  end.

End PyText.

(** ** [int(str, base)]

    White space around, an optional sign, for base 16, 8 and 2 an optional
    prefix, then digits with single underscores between them.  For a base
    that is not a power of two the number of digits is limited by the
    interpreter ([limit], 0 for no limit). *)

Module PyInt.
Import PyStr.

Definition digit_value (c : ascii) : option Z :=
  let n := nat_of_ascii c in
  if (Nat.leb 48 n && Nat.leb n 57)%bool then Some (Z.of_nat n - 48)%Z
  else if (Nat.leb 97 n && Nat.leb n 122)%bool then Some (Z.of_nat n - 87)%Z
  else if (Nat.leb 65 n && Nat.leb n 90)%bool then Some (Z.of_nat n - 55)%Z
  else None.

Definition is_underscore (c : option ascii) : bool :=
  match c with
  | Some p => Ascii.eqb p "_"
  | None => false
  end.

(** The digits at the front of [l]: their value, how many there are, and
    what follows; [None] when two underscores meet or one ends the run. *)
Fixpoint scan_digits (base : Z) (prev : option ascii) (l : list ascii)
  (acc : Z) (count : nat) : option (Z * nat * list ascii) :=
  let stop := if is_underscore prev then None else Some (acc, count, l) in
  match l with
  | [] => stop
  | c :: r =>
      if Ascii.eqb c "_" then
        if is_underscore prev then None
        else scan_digits base (Some c) r acc count
      else
        match digit_value c with
        | Some d =>
            if (d <? base)%Z
            then scan_digits base (Some c) r (acc * base + d)%Z (S count)
            else stop
        | None => stop
        end
  end.

(** [0x], [0o], [0b] in front of the digits of that base, and one
    underscore after it. *)
Definition strip_prefix (base : Z) (l : list ascii) : list ascii :=
  match l with
  | z :: x :: r =>
      if (Ascii.eqb z "0"
          && (((base =? 16)%Z && (Ascii.eqb x "x" || Ascii.eqb x "X"))
              || ((base =? 8)%Z && (Ascii.eqb x "o" || Ascii.eqb x "O"))
              || ((base =? 2)%Z && (Ascii.eqb x "b" || Ascii.eqb x "B"))))%bool
      then match r with
           | u :: r' => if Ascii.eqb u "_" then r' else r
           | [] => r
           end
      else l
  | _ => l
  end.

Definition power_of_two (base : Z) : bool :=
  ((base =? 2) || (base =? 4) || (base =? 8) || (base =? 16)
   || (base =? 32))%Z%bool.

(** [int(s, base)] for [2 <= base <= 36]: [None] stands for [ValueError]. *)
Definition int (limit : nat) (base : Z) (s : string) : option Z :=
  let '(neg, l1) := PyFloat.take_sign (PyFloat.lstrip (chars s)) in
  let l2 := strip_prefix base l1 in
  match l2 with
  | c :: _ =>
      if Ascii.eqb c "_" then None
      else
        match scan_digits base None l2 0%Z O with
        | None => None
        | Some (v, count, rest) =>
            if Nat.eqb count 0 then None
            else if (negb (power_of_two base) && Nat.ltb 0 limit
                     && Nat.ltb limit count)%bool then None
            else
              match PyFloat.lstrip rest with
              | [] => Some (if neg then (- v)%Z else v)
              | _ :: _ => None
              end
        end
  | [] => None
  end.

End PyInt.

(** ** [utils.hex_to_rgb], [utils.parse_version],
       [client.fetch_latest_version] *)

(** The three channels are read in order; the first slice that [int]
    refuses ends the call with [ValueError].  The digit limit does not
    apply to base 16. *)
Definition hex_to_rgb (hex_val : string) : result (Z * Z * Z) :=
  let h := PyText.lstrip_chars "#" hex_val in
  match PyInt.int 0 16 (PyText.slice 0 2 h) with
  | None => Raise ValueError
  | Some r =>
      match PyInt.int 0 16 (PyText.slice 2 4 h) with
      | None => Raise ValueError
      | Some g =>
          match PyInt.int 0 16 (PyText.slice 4 6 h) with
          | None => Raise ValueError
          | Some b => Ok (r, g, b)
          end
      end
  end.

(** [tuple(map(int, l))] *)
Fixpoint ints (limit : nat) (l : list string) : result (list Z) :=
  match l with
  | [] => Ok []
  | x :: r =>
      match PyInt.int limit 10 x with
      | None => Raise ValueError
      | Some n =>
          match ints limit r with
          | Ok ns => Ok (n :: ns)
          | Raise e => Raise e
          end
      end
  end.

(** One element of the generator of [parse_version]:
    [tuple(map(int, v.lstrip("v").split(".")))]. *)
Definition parse_one (limit : nat) (v : string) : result (list Z) :=
  ints limit (PyText.split "." (PyText.lstrip_chars "v" v)).

(** What a generator gives before it ends: the values up to and with the
    first exception. *)
Fixpoint until_raise {A} (l : list (result A)) : list (result A) :=
  match l with
  | [] => []
  | Ok a :: r => Ok a :: until_raise r
  | Raise e :: _ => [Raise e]
  end.

(** [parse_version(versions)] with the arguments as a list: the outcomes
    of the generator it returns, in the order it is consumed. *)
Definition parse_version (limit : nat) (versions : list string)
  : list (result (list Z)) :=
  until_raise (map (parse_one limit) versions).

Definition latest_release_api : string :=
  "https://api.github.com/repos/banz04/mic-drop-results/releases/latest".

(** [response.json()[key]] as a string the methods of [str] can be called
    on. *)
Definition text_field (body : gmap string json) (key : string) : M string :=
  match body !! key with
  | None => raise (KeyError key)
  | Some (JStr t) => ret t
  | Some _ => raise AttributeError
  end.

(** [fetch_latest_version()]: no exception of the request is caught. *)
Definition fetch_latest_version {image : Type} (W : services image)
  : M (string * string) :=
  (response <- requests_get W latest_release_api [] 3 ;;
   body <- of_result response ;;
   tag_name <- text_field body "tag_name" ;;
   text <- text_field body "body" ;;
   ret (PyText.lstrip_chars "v" tag_name,
        PyText.before_first PyText.newline text))%py.

(** [format(n, "02x")] for [0 <= n < 256]. *)
Definition hex_digit (d : Z) : ascii :=
  if (d <? 10)%Z then ascii_of_nat (48 + Z.to_nat d)
  else ascii_of_nat (87 + Z.to_nat d).

Definition two_hex (n : Z) : string :=
  String (hex_digit (n / 16)) (String (hex_digit (n mod 16)) "").

Module Releases.

Definition release_body : gmap string json :=
  Demo.body_of
    [("tag_name", JStr "v3.11.1");
     ("body",
      JStr ("Faster avatars" +:+ String PyText.newline "More details."))].

Definition github : services (list byte) :=
  Demo.world [Response (Ok release_body)] [].

End Releases.

(** ** Sample runs *)

Example is_number_samples :
  map is_number ["2.5"; "1e5"; "inf"; "nan"; "1_0"; " 12 "; "InFiNiTy";
                 "+.5"; "5."; "1e1_0"; "-inf"; "1.e5"; "0_0"]
  = repeat true 13
  /\ map is_number [""; "abc"; "_1"; "1_"; "1__0"; "1_e5"; "infin"; ".";
                    "1e"; "0x10"; "--1"; "1 2"; "in_f"; "1_.5"; "- 1";
                    "e5"; "1.."; "+"; "12/3"]
  = repeat false 19.
Proof. split; vm_compute; reflexivity. Qed.

Example str_of_int_samples :
  map PyStr.str_of_int [0; 1; 9; 10; 128; -1; -250; 1000]
  = ["0"; "1"; "9"; "10"; "128"; "-1"; "-250"; "1000"].
Proof. vm_compute. reflexivity. Qed.

Example get_avatar_dir_sample :
  let main := PyPath.mkPath "D:\" ["app"] in
  let av := PyPath.mkPath "D:\" ["app"; "avatars"] in
  option_map PyPath.to_str
    (match get_avatar_dir main av (Some "1010885414850154587") None 0 with
     | Ok p => Some p | Raise _ => None end)
  = Some "D:\app\avatars\0_1010885414850154587.png".
Proof. vm_compute. reflexivity. Qed.

Example fetch_found :
  fst (fetch_avatar_url (Demo.world [Demo.found] []) 3 "42" "tok" 128
         Demo.start)
  = Ok (Some "https://cdn.discordapp.com/avatars/42/abc.png?size=128").
Proof. vm_compute. reflexivity. Qed.

Example fetch_rate_limited_then_found :
  let r := fetch_avatar_url (Demo.world [Demo.rate_limited; Demo.found] [])
             3 "42" "tok" 128 Demo.start in
  fst r = Ok None /\ sent (snd r) = 2%nat /\ Qeq (now (snd r)) (5 # 2).
Proof. vm_compute. repeat split. Qed.

(** ** The resolver, step by step *)

Section Resolver.
Context {image : Type} (W : services image).
Local Open Scope py_scope.

Lemma fetch_avatar_url_eq retries uid api_token size :
  fetch_avatar_url W retries uid api_token size =
  if negb (is_number uid) then ret None
  else
    response <-
      try_except
        (requests_get W (lookup_url uid) (lookup_headers api_token) 10)
        (fun e =>
           match e with
           | RequestsConnectionError | RequestsReadTimeout =>
               raise ConnectionError
           | _ => raise e
           end) ;;
    body <- of_result response ;;
    match body !! "avatar" with
    | Some h => ret (Some (avatar_link W uid h size))
    | None =>
        msg <- message_lower body ;;
        if PyStr.contains "401: unauthorized" msg then
          raise (InvalidTokenError api_token body)
        else if PyStr.contains "limit" msg then
          sleep_retry_after body ;;;
          match retries with
          | O => raise RecursionError
          | S r => fetch_avatar_url W r uid api_token size
          end ;;;
          ret None
        else if PyStr.contains "unknown user" msg then
          raise (UnknownUserError uid body)
        else
          raise (DiscordAPIError api_token body)
    end.
Proof. destruct retries; reflexivity. Qed.

(** The resolver up to the classification of a body without an avatar:
    one request, whose reply is a dictionary. *)
Lemma fetch_on_reply retries uid api_token size s body :
  is_number uid = true ->
  api W (sent s) (lookup_url uid) (lookup_headers api_token)
    = Response (Ok body) ->
  fetch_avatar_url W retries uid api_token size s =
  (match body !! "avatar" with
   | Some h => ret (Some (avatar_link W uid h size))
   | None =>
       msg <- message_lower body ;;
       if PyStr.contains "401: unauthorized" msg then
         raise (InvalidTokenError api_token body)
       else if PyStr.contains "limit" msg then
         sleep_retry_after body ;;;
         match retries with
         | O => raise RecursionError
         | S r => fetch_avatar_url W r uid api_token size
         end ;;;
         ret None
       else if PyStr.contains "unknown user" msg then
         raise (UnknownUserError uid body)
       else
         raise (DiscordAPIError api_token body)
   end) (after_get (lookup_url uid) (lookup_headers api_token) 10 s).
Proof.
  intros Hnum Hapi. rewrite fetch_avatar_url_eq, Hnum. cbn [negb].
  unfold bind at 1. unfold try_except, requests_get. rewrite Hapi.
  unfold bind at 1. reflexivity.
Qed.

Lemma sleep_for_ok d s :
  (0 <= d)%Q -> in_sleep_range d = true ->
  sleep_for d s = (Ok tt, after_sleep d s).
Proof.
  intros Hd Hr. unfold sleep_for. rewrite Hr.
  apply Qle_bool_iff in Hd. rewrite Hd. reflexivity.
Qed.


(** Whatever it returns, the resolver only adds lookups and sleeps to the
    log, and leaves the files alone. *)
Lemma quiet_refl s : quiet s s.
Proof. exists []. repeat split. constructor. Qed.

Lemma quiet_trans s1 s2 s3 : quiet s1 s2 -> quiet s2 s3 -> quiet s1 s3.
Proof.
  intros (t1 & Hl1 & Ht1 & Hf1) (t2 & Hl2 & Ht2 & Hf2).
  exists (t2 ++ t1). rewrite Hl2, Hl1, Hf2, Hf1. repeat split.
  - now rewrite app_assoc.
  - now apply Forall_app.
Qed.

Lemma quiet_get url headers timeout s :
  quiet s (after_get url headers timeout s).
Proof.
  exists [(now s, EvGet url headers timeout)]. repeat split.
  constructor; [exact I | constructor].
Qed.

Lemma quiet_sleep d s : quiet s (after_sleep d s).
Proof.
  exists [(now s, EvSleep d)]. repeat split.
  constructor; [exact I | constructor].
Qed.

Lemma sleep_retry_after_quiet body s :
  quiet s (snd (sleep_retry_after body s)).
Proof.
  unfold sleep_retry_after, time_sleep, sleep_for.
  destruct (body !! "retry_after") as [v|]; [|apply quiet_refl].
  destruct (as_seconds v) as [d|]; [|apply quiet_refl].
  destruct (in_sleep_range d); [|apply quiet_refl].
  destruct (Qle_bool 0 d); [apply quiet_sleep | apply quiet_refl].
Qed.

(** One call, given that the nested call is quiet: after its request the
    call only adds lookups and sleeps. *)
Lemma fetch_step_quiet retries uid api_token size :
  (forall r s, retries = S r ->
     quiet s (snd (fetch_avatar_url W r uid api_token size s))) ->
  is_number uid = true ->
  forall s,
    quiet (after_get (lookup_url uid) (lookup_headers api_token) 10 s)
          (snd (fetch_avatar_url W retries uid api_token size s)).
Proof.
  intros IH Hnum s. rewrite fetch_avatar_url_eq, Hnum. cbn [negb].
  unfold bind at 1; unfold try_except, requests_get.
  fold (after_get (lookup_url uid) (lookup_headers api_token) 10 s).
  set (s1 := after_get _ _ _ s).
  destruct (api W (sent s) (lookup_url uid) (lookup_headers api_token))
    as [[body|e]|e];
    try (destruct e; apply quiet_refl).
  unfold bind at 1; cbn [of_result]; unfold ret at 1.
  destruct (body !! "avatar"); [apply quiet_refl|].
  unfold bind at 1; unfold message_lower.
  destruct (body !! "message") as [[| | | |m| |]|]; try apply quiet_refl.
  unfold ret at 1.
  destruct (PyStr.contains "401: unauthorized" (PyStr.lower m));
    [apply quiet_refl|].
  destruct (PyStr.contains "limit" (PyStr.lower m));
    [| destruct (PyStr.contains "unknown user" (PyStr.lower m));
       apply quiet_refl].
  unfold bind at 1.
  pose proof (sleep_retry_after_quiet body s1) as Hs.
  destruct (sleep_retry_after body s1) as [[[]|e] s2]; cbn [snd] in Hs;
    [| exact Hs].
  destruct retries as [|r]; [exact Hs|].
  unfold bind at 1. specialize (IH r s2 eq_refl).
  destruct (fetch_avatar_url W r uid api_token size s2) as [[v|e] s3];
    cbn [snd] in *; exact (quiet_trans _ _ _ Hs IH).
Qed.

Lemma fetch_quiet retries uid api_token size :
  forall s, quiet s (snd (fetch_avatar_url W retries uid api_token size s)).
Proof.
  induction retries as [|r IH]; intros s.
  all: destruct (is_number uid) eqn:Hnum;
    [ eapply quiet_trans; [apply quiet_get|];
      apply fetch_step_quiet; [|exact Hnum]
    | rewrite fetch_avatar_url_eq, Hnum; apply quiet_refl ].
  - intros r s0 H. discriminate H.
  - intros r0 s0 H. injection H as <-. apply IH.
Qed.

Lemma fetch_numeric_quiet retries uid api_token size s :
  is_number uid = true ->
  quiet (after_get (lookup_url uid) (lookup_headers api_token) 10 s)
        (snd (fetch_avatar_url W retries uid api_token size s)).
Proof.
  intros Hnum. apply fetch_step_quiet; [|exact Hnum].
  intros r s0 _. apply fetch_quiet.
Qed.

(** A link the resolver returns is one it formatted. *)
Lemma fetch_returns_link retries uid api_token size s url s' :
  fetch_avatar_url W retries uid api_token size s = (Ok (Some url), s') ->
  exists h, url = avatar_link W uid h size.
Proof.
  rewrite fetch_avatar_url_eq.
  destruct (is_number uid); cbn [negb]; [| intros H; discriminate H].
  unfold bind at 1; unfold try_except, requests_get.
  destruct (api W (sent s) (lookup_url uid) (lookup_headers api_token))
    as [[body|e]|e];
    try (destruct e; intros H; discriminate H).
  unfold bind at 1; cbn [of_result]; unfold ret at 1.
  destruct (body !! "avatar") as [h|].
  { intros H. injection H as H _. now exists h. }
  unfold bind at 1; unfold message_lower.
  destruct (body !! "message") as [[| | | |m| |]|];
    try (intros H; discriminate H).
  unfold ret at 1.
  destruct (PyStr.contains "401: unauthorized" (PyStr.lower m));
    [intros H; discriminate H|].
  destruct (PyStr.contains "limit" (PyStr.lower m));
    [| destruct (PyStr.contains "unknown user" (PyStr.lower m));
       intros H; discriminate H].
  unfold bind at 1.
  destruct (sleep_retry_after body _) as [[[]|e] s2];
    [| intros H; discriminate H].
  unfold bind at 1.
  destruct (match retries with
            | O => raise RecursionError
            | S r => fetch_avatar_url W r uid api_token size
            end s2) as [[v|e] s3];
    intros H; discriminate H.
Qed.

(** C3: an identifier that fails the numeric check gets "no avatar" at
    once: the resolver returns [None] and the state is the one it started
    in, so nothing was requested, slept or logged. *)
Theorem non_numeric_uid_no_request retries uid api_token size s :
  is_number uid = false ->
  fetch_avatar_url W retries uid api_token size s = (Ok None, s).
Proof.
  intros Hnum. rewrite fetch_avatar_url_eq, Hnum. reflexivity.
Qed.

(** C5: when the reply has no [avatar] field and its lower-cased message
    contains [401: unauthorized], the resolver raises [InvalidTokenError]
    with the token and the body of the reply, and the state it leaves is
    the one right after the single lookup: no further request, no sleep. *)
Theorem unauthorized_raises_invalid_token
  retries uid api_token size s body msg :
  is_number uid = true ->
  api W (sent s) (lookup_url uid) (lookup_headers api_token)
    = Response (Ok body) ->
  body !! "avatar" = None ->
  body !! "message" = Some (JStr msg) ->
  PyStr.contains "401: unauthorized" (PyStr.lower msg) = true ->
  fetch_avatar_url W retries uid api_token size s
  = (Raise (InvalidTokenError api_token body),
     after_get (lookup_url uid) (lookup_headers api_token) 10 s).
Proof.
  intros Hnum Hapi Hav Hmsg H401.
  rewrite (fetch_on_reply _ _ _ _ _ body Hnum Hapi), Hav.
  unfold bind at 1. unfold message_lower. rewrite Hmsg.
  unfold ret at 1. rewrite H401. reflexivity.
Qed.







End Resolver.

(** ** Properties of the downloader *)

Section Downloader.
Context {image : Type} (W : services image).
Variable MAIN_DIR : PyPath.Path.
Variable AVATAR_DIR : PyPath.Path.
Local Open Scope py_scope.

Lemma download_avatar_eq retries uid api_token size s :
  download_avatar W MAIN_DIR AVATAR_DIR retries uid api_token size s
  = match fetch_avatar_url W retries uid api_token size (paced s) with
    | (Ok v, s1) =>
        if truthy v then
          match get_avatar_path MAIN_DIR AVATAR_DIR uid with
          | Ok img_path =>
              match fetch_image W (default "" v) img_path s1 with
              | (Ok a, s2) => (Ok a, s2)
              | (Raise e, s2) => (Raise (reported e), s2)
              end
          | Raise e => (Raise e, s1)
          end
        else (Ok tt, s1)
    | (Raise e, s1) => (Raise (reported e), s1)
    end.
Proof.
  unfold download_avatar, get_avatar_path, get_avatar_dir.
  cbn [of_result]. unfold bind at 1. unfold ret at 1.
  unfold try_except. unfold bind at 1.
  rewrite (sleep_for_ok (1 # 100) s);
    [| unfold Qle; simpl; lia | reflexivity].
  fold (paced s). unfold bind at 1.
  destruct (fetch_avatar_url W retries uid api_token size (paced s))
    as [[v|e] s1].
  - destruct (truthy v); [|reflexivity].
    unfold fetch_image.
    match goal with
    | |- (let (_, _) := ?a in _) = _ => destruct a as [[[]|e] s2]
    end.
    + reflexivity.
    + destruct e; reflexivity.
  - destruct e; reflexivity.
Qed.

(** C6: if the resolver returns "no avatar", the downloader returns
    normally in the state the resolver left, which is [quiet]: beyond the
    pacing sleep and the lookups and sleeps of the resolver there is no
    request to the CDN and no write, and the files are the ones it
    started with. *)
Theorem no_avatar_no_download retries uid api_token size s s1 :
  fetch_avatar_url W retries uid api_token size (paced s) = (Ok None, s1) ->
  download_avatar W MAIN_DIR AVATAR_DIR retries uid api_token size s
  = (Ok tt, s1)
  /\ quiet s s1.
Proof.
  intros Hfetch.
  pose proof (fetch_quiet W retries uid api_token size (paced s)) as Hq.
  rewrite download_avatar_eq, Hfetch. rewrite Hfetch in Hq. cbn [snd] in Hq.
  split; [reflexivity|].
  exact (quiet_trans _ _ _ (quiet_sleep (1 # 100) s) Hq).
Qed.

(** C7: when the bytes the CDN sends do not decode as an image, the
    downloader raises OpenCV's error, which is not [ConnectionError], and
    stops after the request to the CDN: the files are the ones it started
    with, so no effect-0 entry was written. *)
Theorem undecodable_image_raises_cv2_error
  retries uid api_token size s url s1 bytes :
  fetch_avatar_url W retries uid api_token size (paced s)
    = (Ok (Some url), s1) ->
  cdn W (sent s1) url cdn_headers = Ok bytes ->
  decode W IMREAD_UNCHANGED bytes = None ->
  let s2 :=
    count_request
      (record (EvUrlopen url cdn_headers 10)
         (record (EvPrint (cursor_up_clear +:+ url)) s1)) in
  download_avatar W MAIN_DIR AVATAR_DIR retries uid api_token size s
  = (Raise Cv2Error, s2)
  /\ fs s2 = fs s
  /\ Cv2Error <> ConnectionError.
Proof.
  intros Hfetch Hcdn Hdec s2.
  pose proof (fetch_quiet W retries uid api_token size (paced s)) as Hq.
  rewrite Hfetch in Hq. cbn [snd] in Hq.
  destruct (quiet_trans _ _ _ (quiet_sleep (1 # 100) s) Hq)
    as (tail & Hl & Ht & Hf).
  destruct (fetch_returns_link W _ _ _ _ _ _ _ Hfetch) as [h Hurl].
  split; [| split; [exact Hf | discriminate]].
  rewrite download_avatar_eq, Hfetch.
  assert (Htruthy : truthy (Some url) = true) by (rewrite Hurl; reflexivity).
  rewrite Htruthy. cbn [default].
  unfold get_avatar_path, get_avatar_dir, fetch_image.
  unfold bind at 1. unfold emit at 1.
  unfold bind at 1. unfold urlopen_read at 1.
  cbn [sent record count_request]. unfold id. rewrite Hcdn.
  unfold bind at 1.
  destruct bytes as [|b bs].
  - reflexivity.
  - cbn [cv2_imdecode]. rewrite Hdec. reflexivity.
Qed.


End Downloader.

(** ** Properties of the cache paths *)

Module PathFacts.
Import PyStr PyPath.

Lemma append_snoc cur c r : (cur +:+ String c "") +:+ r = cur +:+ String c r.
Proof.
  induction cur as [|a cur IH]; [reflexivity|].
  change (String a ((cur +:+ String c "") +:+ r) = String a (cur +:+ String c r)).
  now f_equal.
Qed.

Lemma length_append s t :
  String.length (s +:+ t) = (String.length s + String.length t)%nat.
Proof. induction s as [|a s IH]; simpl; [reflexivity | now f_equal]. Qed.

Lemma take_str_append s t : take_str (String.length s) (s +:+ t) = s.
Proof. induction s as [|a s IH]; simpl; [now destruct t | now f_equal]. Qed.

Lemma rfind_dot_png s : rfind_dot (s +:+ ".png") = Some (String.length s).
Proof.
  induction s as [|a s IH]; [reflexivity|].
  simpl. simpl in IH. now rewrite IH.
Qed.

Lemma no_sep_append s t :
  no_sep s = true -> no_sep t = true -> no_sep (s +:+ t) = true.
Proof.
  intros Hs Ht. induction s as [|a s IH]; simpl in *; [exact Ht|].
  apply andb_true_iff in Hs as [Ha Hs]. rewrite Ha. now apply IH.
Qed.

(** A segment without separators is one component. *)
Lemma components_from_no_sep s :
  forall cur, no_sep s = true -> components_from cur s = keep (cur +:+ s) [].
Proof.
  induction s as [|c r IH]; intros cur Hs;
    cbn [components_from no_sep] in *.
  - assert (Hc : cur +:+ "" = cur).
    { clear. induction cur as [|a cur IH]; [reflexivity|].
      change (String a (cur +:+ "") = String a cur). now f_equal. }
    now rewrite Hc.
  - apply andb_true_iff in Hs as [Hc Hr].
    apply negb_true_iff in Hc. rewrite Hc, IH by exact Hr.
    now rewrite append_snoc.
Qed.

Lemma digit_facts c :
  is_digit c = true -> is_sep c = false /\ Ascii.eqb c "." = false.
Proof.
  destruct c as [[] [] [] [] [] [] [] []]; vm_compute; intros H;
    first [discriminate H | split; reflexivity].
Qed.

Lemma str_of_int_digit e :
  (0 <= e <= 9)%Z ->
  exists c, str_of_int e = String c "" /\ is_digit c = true.
Proof.
  intros He.
  assert (Hcases : (e = 0 \/ e = 1 \/ e = 2 \/ e = 3 \/ e = 4 \/ e = 5
                    \/ e = 6 \/ e = 7 \/ e = 8 \/ e = 9)%Z) by lia.
  repeat (destruct Hcases as [-> | Hcases]);
    try subst e; eexists; split; vm_compute; reflexivity.
Qed.

Section WithDirs.
Variable MAIN_DIR : Path.
Variable AVATAR_DIR : Path.

(** The file name [get_avatar_dir] builds for a one-digit effect code. *)
Lemma cache_name c uid :
  is_digit c = true -> no_sep uid = true ->
  name (abs_dir MAIN_DIR
          [Absolute AVATAR_DIR; Segment (String c (String "_" (uid +:+ ".png")))])
  = String c (String "_" (uid +:+ ".png")).
Proof.
  intros Hc Hu. destruct (digit_facts c Hc) as [Hsep Hdot].
  unfold abs_dir, joinpath. cbn [fold_left join rooted]. rewrite Hsep.
  unfold components, name. cbn [parts].
  rewrite components_from_no_sep.
  - change ("" +:+ String c (String "_" (uid +:+ ".png")))
      with (String c (String "_" (uid +:+ ".png"))).
    unfold keep. cbn [String.eqb]. rewrite Hdot.
    cbn [orb]. clear.
    induction (parts AVATAR_DIR) as [|a l IH]; [reflexivity|].
    cbn [app]. destruct l; [reflexivity | exact IH].
  - cbn [no_sep]. rewrite Hsep. cbn.
    apply no_sep_append; [exact Hu | reflexivity].
Qed.

Lemma cache_name_has_suffix c uid :
  let n := String c (String "_" (uid +:+ ".png")) in
  forall p, name p = n -> String.eqb (stem p) (name p) = false.
Proof.
  intros n p Hn. unfold stem. rewrite Hn.
  set (s0 := String c (String "_" uid)).
  change n with (s0 +:+ ".png").
  rewrite rfind_dot_png.
  assert (H0 : (0 < String.length s0)%nat) by (subst s0; simpl; lia).
  assert (Hlt : (Nat.ltb 0 (String.length s0)
                 && Nat.ltb (String.length s0)
                      (String.length (s0 +:+ ".png") - 1))%bool = true).
  { rewrite length_append. change (String.length ".png") with 4%nat.
    apply andb_true_iff; split; apply Nat.ltb_lt; lia. }
  rewrite Hlt, take_str_append.
  apply String.eqb_neq. intros Heq.
  apply (f_equal String.length) in Heq. rewrite length_append in Heq.
  change (String.length ".png") with 4%nat in Heq. lia.
Qed.

Lemma cache_path_roundtrip uid e f :
  no_sep uid = true -> (0 <= e <= 9)%Z ->
  exists p,
    get_avatar_dir MAIN_DIR AVATAR_DIR (Some uid) None e = Ok p
    /\ drop_str 2 (name p) = uid +:+ ".png"
    /\ get_avatar_dir MAIN_DIR AVATAR_DIR None (Some p) f
       = get_avatar_dir MAIN_DIR AVATAR_DIR (Some uid) None f.
Proof.
  intros Hu He. destruct (str_of_int_digit e He) as (c & Hstr & Hc).
  pose proof (cache_name c uid Hc Hu) as Hname.
  exists (abs_dir MAIN_DIR
            [Absolute AVATAR_DIR;
             Segment (String c (String "_" (uid +:+ ".png")))]).
  split; [| split].
  - unfold get_avatar_dir. rewrite Hstr. reflexivity.
  - rewrite Hname. reflexivity.
  - unfold get_avatar_dir.
    rewrite (cache_name_has_suffix c uid _ Hname), Hname. reflexivity.
Qed.

End WithDirs.
End PathFacts.

(** ** What [float] accepts contains no path separator *)

Module FloatFacts.
Import PyStr PyPath PyFloat PathFacts.

Lemma space_plain c : is_space c = true -> plain c.
Proof.
  destruct c as [[] [] [] [] [] [] [] []]; vm_compute; intros H;
    first [discriminate H | reflexivity].
Qed.

Lemma digit_plain c : is_digit c = true -> plain c.
Proof. intros H. now destruct (digit_facts c H). Qed.

Lemma lower_char_sep c : is_sep (lower_char c) = is_sep c.
Proof. destruct c as [[] [] [] [] [] [] [] []]; reflexivity. Qed.

Lemma no_sep_chars s : no_sep s = true <-> Forall plain (chars s).
Proof.
  induction s as [|c r IH]; simpl.
  - split; [constructor | reflexivity].
  - rewrite andb_true_iff, negb_true_iff, IH. split.
    + intros [Hc Hr]. now constructor.
    + intros H. inversion H. now split.
Qed.

Lemma lstrip_plain l : Forall plain (lstrip l) -> Forall plain l.
Proof.
  induction l as [|c r IH]; simpl; [trivial|].
  destruct (is_space c) eqn:Hc; [|trivial].
  intros H. constructor; [now apply space_plain | now apply IH].
Qed.

Lemma strip_plain l : Forall plain (strip l) -> Forall plain l.
Proof.
  unfold strip. intros H.
  apply lstrip_plain. rewrite <- (rev_involutive (lstrip l)).
  apply Forall_rev, lstrip_plain.
  rewrite <- (rev_involutive (lstrip (rev (lstrip l)))).
  now apply Forall_rev.
Qed.

Lemma remove_underscores_plain l :
  forall prev l',
    remove_underscores prev l = Some l' -> Forall plain l' -> Forall plain l.
Proof.
  induction l as [|c r IH]; intros prev l' Hrm Hl'; [constructor|].
  simpl in Hrm. destruct (Ascii.eqb c "_") eqn:Hc.
  - apply Ascii.eqb_eq in Hc. subst c.
    constructor; [reflexivity|].
    destruct prev as [p|]; [|discriminate Hrm].
    destruct (is_digit p); [|discriminate Hrm].
    exact (IH _ _ Hrm Hl').
  - destruct (match prev with
              | Some p => (Ascii.eqb p "_" && negb (is_digit c))%bool
              | None => false
              end); [discriminate Hrm|].
    destruct (remove_underscores (Some c) r) as [l1|] eqn:Hr;
      [|discriminate Hrm].
    simpl in Hrm. injection Hrm as <-. inversion Hl'; subst.
    constructor; [assumption | exact (IH _ _ Hr ltac:(assumption))].
Qed.

Lemma take_sign_plain l neg body :
  take_sign l = (neg, body) -> Forall plain body -> Forall plain l.
Proof.
  destruct l as [|c r]; simpl; [intros _ _; constructor|].
  destruct (Ascii.eqb c "-") eqn:Hm.
  { apply Ascii.eqb_eq in Hm. subst c. intros H Hb. injection H as _ <-.
    constructor; [reflexivity | exact Hb]. }
  destruct (Ascii.eqb c "+") eqn:Hp.
  { apply Ascii.eqb_eq in Hp. subst c. intros H Hb. injection H as _ <-.
    constructor; [reflexivity | exact Hb]. }
  intros H Hb. injection H as _ <-. exact Hb.
Qed.

Lemma span_digits_plain l :
  forall d rest,
    span_digits l = (d, rest) -> Forall plain rest -> Forall plain l.
Proof.
  induction l as [|c r IH]; intros d rest; simpl; [intros _ _; constructor|].
  destruct (is_digit c) eqn:Hc.
  - destruct (span_digits r) as [d1 r1] eqn:Hr. intros H Hrest.
    injection H as _ <-.
    constructor; [now apply digit_plain | exact (IH _ _ eq_refl Hrest)].
  - intros H Hrest. injection H as _ <-. exact Hrest.
Qed.

Lemma take_exponent_plain l ex :
  take_exponent l = (ex, []) -> Forall plain l.
Proof.
  destruct l as [|c r]; simpl; [intros _; constructor|].
  destruct (Ascii.eqb c "e" || Ascii.eqb c "E")%bool eqn:Hc;
    [|intros H; discriminate H].
  destruct (take_sign r) as [neg r1] eqn:Hsign.
  destruct (span_digits r1) as [[|d ds] rest] eqn:Hspan;
    intros H; [discriminate H|].
  injection H as _ ->.
  constructor.
  - apply orb_true_iff in Hc as [Hc|Hc]; apply Ascii.eqb_eq in Hc;
      subst c; reflexivity.
  - eapply take_sign_plain; [exact Hsign|].
    eapply span_digits_plain; [exact Hspan | constructor].
Qed.

Lemma take_decimal_plain neg l v :
  take_decimal neg l = Some (v, []) -> Forall plain l.
Proof.
  unfold take_decimal.
  destruct (span_digits l) as [ip r1] eqn:Hip.
  assert (Hstep : forall fp r2 ex,
             match r1 with
             | c :: r => if Ascii.eqb c "." then span_digits r else ([], r1)
             | [] => ([], [])
             end = (fp, r2) ->
             take_exponent r2 = (ex, []) -> Forall plain l).
  { intros fp r2 ex Hfp Hex.
    eapply span_digits_plain; [exact Hip|].
    pose proof (take_exponent_plain _ _ Hex) as Hr2.
    destruct r1 as [|c r]; [constructor|].
    destruct (Ascii.eqb c ".") eqn:Hc.
    - apply Ascii.eqb_eq in Hc. subst c. constructor; [reflexivity|].
      eapply span_digits_plain; [exact Hfp | exact Hr2].
    - injection Hfp as _ <-. exact Hr2. }
  destruct (match r1 with
            | c :: r => if Ascii.eqb c "." then span_digits r else ([], r1)
            | [] => ([], [])
            end) as [fp r2] eqn:Hfp.
  destruct (take_exponent r2) as [ex r3] eqn:Hex.
  destruct ip as [|i ip]; [destruct fp as [|f fp]|];
    intros H; try discriminate H;
    injection H as _ ->; exact (Hstep _ _ _ eq_refl Hex).
Qed.

Lemma same_letters_plain word l :
  same_letters word l = true -> no_sep word = true -> Forall plain l.
Proof.
  unfold same_letters. intros H Hw. apply String.eqb_eq in H.
  apply no_sep_chars in Hw. rewrite <- H in Hw. unfold chars in Hw.
  rewrite list_ascii_of_string_of_list_ascii in Hw.
  clear H. induction l as [|c r IH]; [constructor|].
  inversion Hw; subst. constructor; [|now apply IH].
  unfold plain in *. now rewrite <- lower_char_sep.
Qed.

Lemma inf_or_nan_plain neg l v : inf_or_nan neg l = Some v -> Forall plain l.
Proof.
  unfold inf_or_nan.
  destruct (same_letters "inf" l) eqn:H1;
    [intros _; now apply (same_letters_plain "inf")|].
  destruct (same_letters "infinity" l) eqn:H2;
    [intros _; now apply (same_letters_plain "infinity")|].
  destruct (same_letters "nan" l) eqn:H3;
    [intros _; now apply (same_letters_plain "nan")|].
  intros H; discriminate H.
Qed.

(** A string that passes the numeric check has no path separator. *)
Lemma is_number_no_sep s : is_number s = true -> no_sep s = true.
Proof.
  unfold is_number, float. intros H. apply no_sep_chars, strip_plain.
  destruct (remove_underscores None (strip (chars s))) as [l|] eqn:Hrm;
    [|discriminate H].
  eapply remove_underscores_plain; [exact Hrm|].
  destruct (take_sign l) as [neg body] eqn:Hsign.
  eapply take_sign_plain; [exact Hsign|].
  destruct (take_decimal neg body) as [[v [|c r]]|] eqn:Hdec.
  - exact (take_decimal_plain _ _ _ Hdec).
  - discriminate H.
  - destruct (inf_or_nan neg body) as [v|] eqn:Hinf; [|discriminate H].
    exact (inf_or_nan_plain _ _ _ Hinf).
Qed.

End FloatFacts.

(** ** Properties of the effect processor *)

Section Effects.
Context {image : Type} (W : services image).
Variable MAIN_DIR : PyPath.Path.
Variable AVATAR_DIR : PyPath.Path.
Local Open Scope py_scope.

(** C8: with effect code 0 the effect processor returns the path it was
    given and leaves the state as it was: nothing is read, nothing is
    written. *)
Theorem effect_zero_returns_input og_dir s :
  artistic_effect W MAIN_DIR AVATAR_DIR og_dir 0 s = (Ok og_dir, s).
Proof. reflexivity. Qed.

(** C9: with an effect code other than 0 and 1, on a base entry that
    exists and decodes, the effect processor does not raise: it writes
    the image exactly as [imread] returned it (no transform is applied) to
    the path of that effect code and returns that path. *)
Theorem unknown_effect_passes_image_through
  og_dir effect s bytes im fx_dir enc :
  effect <> 0%Z -> effect <> 1%Z ->
  fs s !! PyPath.to_str og_dir = Some bytes ->
  decode W IMREAD_COLOR bytes = Some im ->
  get_avatar_dir MAIN_DIR AVATAR_DIR None (Some og_dir) effect = Ok fx_dir ->
  encoder W (PyPath.to_str fx_dir) = Some enc ->
  artistic_effect W MAIN_DIR AVATAR_DIR og_dir effect s
  = (Ok fx_dir,
     let s1 := record (EvImread (PyPath.to_str og_dir)) s in
     if writable W (PyPath.to_str fx_dir) then
       mkState (now s1) ((now s1, EvImwrite (PyPath.to_str fx_dir)) :: log s1)
               (sent s1) (<[PyPath.to_str fx_dir := enc im]> (fs s1))
     else s1).
Proof.
  intros H0 H1 Hfile Hdec Hfx Henc.
  apply Z.eqb_neq in H0. apply Z.eqb_neq in H1.
  unfold artistic_effect. rewrite H0, H1, Hfx. cbn [negb of_result].
  unfold bind at 1. unfold cv2_imread. rewrite Hfile, Hdec.
  unfold bind at 1. unfold ret at 1.
  unfold bind at 1. unfold ret at 1.
  unfold bind at 1. unfold cv2_imwrite. rewrite Henc.
  destruct (writable W (PyPath.to_str fx_dir)); reflexivity.
Qed.

End Effects.

(** ** The claims on the cache paths and on the numeric check *)

(** C4 (as amended): for an identifier that passes the numeric check and
    an effect code from 0 to 9, the name of the cache path with its first
    two characters dropped is the identifier followed by [.png], and
    [get_avatar_dir] on that path gives, for every effect code [f], the
    cache path of the same identifier under [f]. *)
Theorem cache_path_recovers_identifier MAIN_DIR AVATAR_DIR uid e f :
  is_number uid = true -> (0 <= e <= 9)%Z ->
  exists p,
    get_avatar_dir MAIN_DIR AVATAR_DIR (Some uid) None e = Ok p
    /\ PyStr.drop_str 2 (PyPath.name p) = uid +:+ ".png"
    /\ get_avatar_dir MAIN_DIR AVATAR_DIR None (Some p) f
       = get_avatar_dir MAIN_DIR AVATAR_DIR (Some uid) None f.
Proof.
  intros Hnum He.
  apply PathFacts.cache_path_roundtrip; [|exact He].
  now apply FloatFacts.is_number_no_sep.
Qed.

(** C10: [is_number] is [True] exactly on the strings [float] accepts;
    [2.5], [1e5], [inf] and [nan] pass, and for each of them the resolver
    sends the lookup: its log continues the log it started with by that
    request. *)
Theorem is_number_is_float_acceptance :
  (forall s, is_number s = true <-> exists v, PyFloat.float s = Some v)
  /\ Forall
       (fun uid =>
          is_number uid = true
          /\ forall (image : Type) (W : services image) retries api_token
                    size s,
               exists tail,
                 log (snd (fetch_avatar_url W retries uid api_token size s))
                 = tail
                   ++ (now s,
                       EvGet (lookup_url uid) (lookup_headers api_token) 10)
                   :: log s)
       ["2.5"; "1e5"; "inf"; "nan"].
Proof.
  split.
  - intros s. unfold is_number. destruct (PyFloat.float s) as [v|].
    + split; [intros _; now exists v | reflexivity].
    + split; [intros H; discriminate H | intros [v H]; discriminate H].
  - repeat constructor;
      intros image W retries api_token size s;
      match goal with
      | |- context [fetch_avatar_url W retries ?uid _ _ _] =>
          destruct (fetch_numeric_quiet W retries uid api_token size s
                      eq_refl) as (tail & Hl & _)
      end;
      exists tail; exact Hl.
Qed.

(** ** The statements at concrete inputs *)

Module Instances.
Import Demo.

(** C3 at the identifier [abc]. *)
Lemma non_numeric_uid_no_request_abc :
  fetch_avatar_url limited_then_found 3 "abc" "tok" 128 start
  = (Ok None, start).
Proof.
  apply (non_numeric_uid_no_request limited_then_found 3 "abc" "tok" 128
           start).
  vm_compute. reflexivity.
Defined.

(** C5 at a reply [401: Unauthorized]. *)
Lemma unauthorized_raises_invalid_token_42 :
  fetch_avatar_url token_revoked 3 "42" "tok" 128 start
  = (Raise (InvalidTokenError "tok" unauthorized_body),
     after_get (lookup_url "42") (lookup_headers "tok") 10 start).
Proof.
  apply (unauthorized_raises_invalid_token token_revoked 3 "42" "tok" 128
           start unauthorized_body "401: Unauthorized");
    vm_compute; reflexivity.
Defined.



(** The message of the first of these replies does contain the rate
    limit marker, and the body has a [retry_after]. *)
Example both_markers_body_is_as_the_claim_says :
  unauthorized_limit_body !! "avatar" = None
  /\ unauthorized_limit_body !! "message"
     = Some (JStr "401: Unauthorized (rate limit)")
  /\ PyStr.contains "limit" (PyStr.lower "401: Unauthorized (rate limit)")
     = true
  /\ unauthorized_limit_body !! "retry_after" = Some (JFloat (5 # 2)).
Proof. repeat split; vm_compute; reflexivity. Qed.



(** The retry of that run succeeds, and its link is lost. *)
Example retry_succeeds_link_lost :
  let s1 :=
    after_sleep (5 # 2)
      (after_get (lookup_url "42") (lookup_headers "tok") 10 start) in
  fst (fetch_avatar_url limited_then_found 2 "42" "tok" 128 s1)
  = Ok (Some "https://cdn.discordapp.com/avatars/42/abc.png?size=128")
  /\ fst (fetch_avatar_url limited_then_found 3 "42" "tok" 128 start)
     = Ok None
  /\ download_avatar limited_then_found main_dir avatar_dir 3 "42" "tok" 128
       start
     = (Ok tt,
        snd (fetch_avatar_url limited_then_found 3 "42" "tok" 128
               (paced start))).
Proof. repeat split; vm_compute; reflexivity. Qed.

(** C6 at a rate-limited first reply, after which the resolver returns
    [None]. *)
Lemma no_avatar_no_download_42 :
  let s1 :=
    snd (fetch_avatar_url limited_then_found 3 "42" "tok" 128
           (paced start)) in
  download_avatar limited_then_found main_dir avatar_dir 3 "42" "tok" 128
    start
  = (Ok tt, s1)
  /\ quiet start s1.
Proof.
  apply (no_avatar_no_download limited_then_found main_dir avatar_dir 3
           "42" "tok" 128 start).
  vm_compute. reflexivity.
Defined.

(** C7 at a CDN body that is a page of HTML. *)
Lemma undecodable_image_raises_cv2_error_42 :
  let url := "https://cdn.discordapp.com/avatars/42/abc.png?size=128" in
  let s1 :=
    snd (fetch_avatar_url found_but_garbled 3 "42" "tok" 128
           (paced start)) in
  let s2 :=
    count_request
      (record (EvUrlopen url cdn_headers 10)
         (record (EvPrint (cursor_up_clear +:+ url)) s1)) in
  download_avatar found_but_garbled main_dir avatar_dir 3 "42" "tok" 128
    start
  = (Raise Cv2Error, s2)
  /\ fs s2 = fs start
  /\ Cv2Error <> ConnectionError.
Proof.
  apply (undecodable_image_raises_cv2_error found_but_garbled main_dir
           avatar_dir 3 "42" "tok" 128 start
           "https://cdn.discordapp.com/avatars/42/abc.png?size=128"
           (snd (fetch_avatar_url found_but_garbled 3 "42" "tok" 128
                   (paced start)))
           not_an_image);
    vm_compute; reflexivity.
Defined.

(** C9 at effect code 2 on the cached entry of user 42. *)
Lemma unknown_effect_passes_image_through_2 :
  let fx := PyPath.mkPath "D:\" ["app"; "avatars"; "2_42.png"] in
  artistic_effect limited_then_found main_dir avatar_dir base_path 2 cached
  = (Ok fx,
     mkState 0
       [(0%Q, EvImwrite (PyPath.to_str fx));
        (0%Q, EvImread (PyPath.to_str base_path))]
       0
       (<[PyPath.to_str fx := png_bytes]> (fs cached))).
Proof.
  apply (unknown_effect_passes_image_through limited_then_found main_dir
           avatar_dir base_path 2 cached png_bytes png_bytes
           (PyPath.mkPath "D:\" ["app"; "avatars"; "2_42.png"])
           (fun im => im));
    first [ discriminate | vm_compute; reflexivity ].
Defined.

(** C4 at user 42, from effect 0 to effect 1. *)
Lemma cache_path_recovers_identifier_42 :
  exists p,
    get_avatar_dir main_dir avatar_dir (Some "42") None 0 = Ok p
    /\ PyStr.drop_str 2 (PyPath.name p) = "42" +:+ ".png"
    /\ get_avatar_dir main_dir avatar_dir None (Some p) 1
       = get_avatar_dir main_dir avatar_dir (Some "42") None 1.
Proof.
  apply (cache_path_recovers_identifier main_dir avatar_dir "42" 0 1);
    first [ vm_compute; reflexivity | lia ].
Defined.

(** The claim C4 fails at effect code 10: the name is [10_123.png], the
    first two characters dropped leave [_123.png], and the path derived
    from it for effect 1 is not the cache path of user 123 for effect 1.
    Even at effect code 0 what is recovered is [123.png], not [123]. *)
Lemma two_digit_effect_breaks_recovery :
  let p := PyPath.mkPath "D:\" ["app"; "avatars"; "10_123.png"] in
  get_avatar_dir main_dir avatar_dir (Some "123") None 10 = Ok p
  /\ PyStr.drop_str 2 (PyPath.name p) = "_123.png"
  /\ get_avatar_dir main_dir avatar_dir None (Some p) 1
     = Ok (PyPath.mkPath "D:\" ["app"; "avatars"; "1__123.png"])
  /\ get_avatar_dir main_dir avatar_dir (Some "123") None 1
     = Ok (PyPath.mkPath "D:\" ["app"; "avatars"; "1_123.png"])
  /\ option_map (fun q => PyStr.drop_str 2 (PyPath.name q))
       (match get_avatar_dir main_dir avatar_dir (Some "123") None 0 with
        | Ok q => Some q
        | Raise _ => None
        end)
     = Some "123.png".
Proof. repeat split; vm_compute; reflexivity. Qed.

End Instances.

(** ** More sample runs *)

Example int_samples :
  map (PyInt.int 4300 16) ["ff"; " f"; "-f"; "0xf"; "0x_f"; "f_f"; "0b1"]
  = [Some 255; Some 15; Some (-15); Some 15; Some 15; Some 255; Some 177]%Z
  /\ map (PyInt.int 4300 16) [""; "0x"; "_f"; "f_"; "f__f"; "+ f"; "g"]
     = repeat None 7
  /\ map (PyInt.int 4300 10) ["00"; "-0"; " 12 "; "1_000"; "0x10"; "1.5"]
     = [Some 0; Some 0; Some 12; Some 1000; None; None]%Z.
Proof. repeat split; vm_compute; reflexivity. Qed.

Example hex_to_rgb_samples :
  map hex_to_rgb ["#ff00aa"; "##00ff7f"; "#FFFFFF"; "#fff"; "# f+f-f"]
  = [Ok (255, 0, 170); Ok (0, 255, 127); Ok (255, 255, 255);
     Raise ValueError; Ok (15, 15, -15)]%Z.
Proof. vm_compute. reflexivity. Qed.

Example parse_version_samples :
  parse_version 4300 ["v3.11"; "v3.10"] = [Ok [3; 11]; Ok [3; 10]]%Z
  /\ map (parse_one 4300) ["3.11.1"; "vv1.2"; "v"; "1.2."; "0001.0_0"]
     = [Ok [3; 11; 1]; Ok [1; 2]; Raise ValueError; Raise ValueError;
        Ok [1; 0]]%Z.
Proof. split; vm_compute; reflexivity. Qed.

(** ** More on the link resolver *)

Section ResolverCases.
Context {image : Type} (W : services image).
Local Open Scope py_scope.

(** One call of the resolver, by the way it ends: without a request;
    right after its request, with a link or an exception; at the
    recursion limit, after the sleep; or as its nested call ends. *)
Lemma fetch_step retries uid api_token size s :
  let r := fetch_avatar_url W retries uid api_token size s in
  let s0 := after_get (lookup_url uid) (lookup_headers api_token) 10 s in
  (is_number uid = false /\ r = (Ok None, s))
  \/ (is_number uid = true /\ snd r = s0
      /\ ((exists body h,
             api W (sent s) (lookup_url uid) (lookup_headers api_token)
               = Response (Ok body)
             /\ body !! "avatar" = Some h
             /\ fst r = Ok (Some (avatar_link W uid h size)))
          \/ exists e, fst r = Raise e))
  \/ (exists d, (0 <= d)%Q /\ retries = O
                /\ r = (Raise RecursionError, after_sleep d s0))
  \/ (exists d n, (0 <= d)%Q /\ retries = S n
        /\ r = (discard
                  (fst (fetch_avatar_url W n uid api_token size
                          (after_sleep d s0))),
                snd (fetch_avatar_url W n uid api_token size
                       (after_sleep d s0)))).
Proof.
  intros r s0.
  assert (Hr : r = fetch_avatar_url W retries uid api_token size s)
    by reflexivity.
  clearbody r. rewrite fetch_avatar_url_eq in Hr.
  assert (Hcase : is_number uid = true \/ is_number uid = false)
    by (destruct (is_number uid); auto).
  destruct Hcase as [Hnum|Hnum]; rewrite Hnum in Hr; cbn [negb] in Hr;
    [right | left; split; [exact Hnum | exact Hr]].
  unfold bind at 1 in Hr; unfold try_except, requests_get in Hr.
  change (count_request
            (record (EvGet (lookup_url uid) (lookup_headers api_token) 10) s))
    with s0 in Hr.
  assert (Hstop : forall e, r = (Raise e, s0) ->
            is_number uid = true /\ snd r = s0
            /\ ((exists body h,
                   api W (sent s) (lookup_url uid) (lookup_headers api_token)
                     = Response (Ok body)
                   /\ body !! "avatar" = Some h
                   /\ fst r = Ok (Some (avatar_link W uid h size)))
                \/ exists e, fst r = Raise e)).
  { intros e ->. split; [exact Hnum|]. split; [reflexivity|].
    right. now exists e. }
  destruct (api W (sent s) (lookup_url uid) (lookup_headers api_token))
    as [[body|e]|e] eqn:Hapi;
    try (left; destruct e; eapply Hstop; exact Hr).
  unfold bind at 1 in Hr; cbn [of_result] in Hr; unfold ret at 1 in Hr.
  destruct (body !! "avatar") as [h|] eqn:Hav.
  { left. split; [exact Hnum|]. rewrite Hr. split; [reflexivity|].
    left. exists body, h. repeat split; assumption. }
  unfold bind at 1 in Hr; unfold message_lower in Hr.
  destruct (body !! "message") as [[| | | |m| |]|];
    try (left; eapply Hstop; exact Hr).
  unfold ret at 1 in Hr.
  destruct (PyStr.contains "401: unauthorized" (PyStr.lower m));
    [left; eapply Hstop; exact Hr|].
  destruct (PyStr.contains "limit" (PyStr.lower m));
    [| destruct (PyStr.contains "unknown user" (PyStr.lower m));
       left; eapply Hstop; exact Hr].
  unfold bind at 1 in Hr.
  unfold sleep_retry_after, time_sleep, sleep_for in Hr.
  destruct (body !! "retry_after") as [v|];
    [| left; eapply Hstop; exact Hr].
  destruct (as_seconds v) as [d|]; [| left; eapply Hstop; exact Hr].
  destruct (in_sleep_range d); [| left; eapply Hstop; exact Hr].
  destruct (Qle_bool 0 d) eqn:Hd; [| left; eapply Hstop; exact Hr].
  apply Qle_bool_iff in Hd. right.
  change (mkState (now s0 + d) ((now s0, EvSleep d) :: log s0) (sent s0)
                  (fs s0))
    with (after_sleep d s0) in Hr.
  destruct retries as [|n].
  - left. exists d. repeat split; assumption.
  - right. exists d, n. split; [exact Hd|]. split; [reflexivity|].
    rewrite Hr. unfold bind at 1.
    destruct (fetch_avatar_url W n uid api_token size (after_sleep d s0))
      as [[u|e] s2]; reflexivity.
Qed.


(** X2: a reply without [avatar] whose lower-cased message contains
    [unknown user], and neither [401: unauthorized] nor [limit], raises
    [UnknownUserError] with the identifier and the body, right after the
    lookup. *)
Theorem unknown_user_raises retries uid api_token size s body msg :
  is_number uid = true ->
  api W (sent s) (lookup_url uid) (lookup_headers api_token)
    = Response (Ok body) ->
  body !! "avatar" = None ->
  body !! "message" = Some (JStr msg) ->
  PyStr.contains "401: unauthorized" (PyStr.lower msg) = false ->
  PyStr.contains "limit" (PyStr.lower msg) = false ->
  PyStr.contains "unknown user" (PyStr.lower msg) = true ->
  fetch_avatar_url W retries uid api_token size s
  = (Raise (UnknownUserError uid body),
     after_get (lookup_url uid) (lookup_headers api_token) 10 s).
Proof.
  intros Hnum Hapi Hav Hmsg H401 Hlim Hunk.
  rewrite (fetch_on_reply W _ _ _ _ _ body Hnum Hapi), Hav.
  unfold bind at 1. unfold message_lower. rewrite Hmsg.
  unfold ret at 1. rewrite H401, Hlim, Hunk. reflexivity.
Qed.

(** X3: a reply without [avatar] whose message contains none of the
    three markers raises [DiscordAPIError] with the token and the body,
    right after the lookup. *)
Theorem other_message_raises_api_error
  retries uid api_token size s body msg :
  is_number uid = true ->
  api W (sent s) (lookup_url uid) (lookup_headers api_token)
    = Response (Ok body) ->
  body !! "avatar" = None ->
  body !! "message" = Some (JStr msg) ->
  PyStr.contains "401: unauthorized" (PyStr.lower msg) = false ->
  PyStr.contains "limit" (PyStr.lower msg) = false ->
  PyStr.contains "unknown user" (PyStr.lower msg) = false ->
  fetch_avatar_url W retries uid api_token size s
  = (Raise (DiscordAPIError api_token body),
     after_get (lookup_url uid) (lookup_headers api_token) 10 s).
Proof.
  intros Hnum Hapi Hav Hmsg H401 Hlim Hunk.
  rewrite (fetch_on_reply W _ _ _ _ _ body Hnum Hapi), Hav.
  unfold bind at 1. unfold message_lower. rewrite Hmsg.
  unfold ret at 1. rewrite H401, Hlim, Hunk. reflexivity.
Qed.

(** X4: when the lookup fails in the transport, a refused connection and
    a read timeout both come out as the built-in [ConnectionError]; any
    other exception of the request comes out as it is.  There is one
    request and no retry. *)
Theorem transport_failure_is_connection_error
  retries uid api_token size s e :
  is_number uid = true ->
  api W (sent s) (lookup_url uid) (lookup_headers api_token) = Failed e ->
  fetch_avatar_url W retries uid api_token size s
  = (Raise (match e with
            | RequestsConnectionError | RequestsReadTimeout =>
                ConnectionError
            | _ => e
            end),
     after_get (lookup_url uid) (lookup_headers api_token) 10 s).
Proof.
  intros Hnum Hapi. rewrite fetch_avatar_url_eq, Hnum. cbn [negb].
  unfold bind at 1. unfold try_except, requests_get. rewrite Hapi.
  destruct e; reflexivity.
Qed.

(** X5: a link is only ever returned by a call that made exactly one
    request and did not sleep: the state is the one right after the
    lookup, and the link was formatted from the [avatar] field of that
    reply. *)
Theorem link_means_single_request retries uid api_token size s url s' :
  fetch_avatar_url W retries uid api_token size s = (Ok (Some url), s') ->
  s' = after_get (lookup_url uid) (lookup_headers api_token) 10 s
  /\ exists body h,
       api W (sent s) (lookup_url uid) (lookup_headers api_token)
         = Response (Ok body)
       /\ body !! "avatar" = Some h
       /\ url = avatar_link W uid h size.
Proof.
  intros Hfetch.
  destruct (fetch_step retries uid api_token size s)
    as [[_ H] | [(_ & Hs & [(body & h & Hapi & Hav & Hr) | [e Hr]])
                | [(d & _ & _ & H) | (d & n & _ & _ & H)]]];
    rewrite Hfetch in *; cbn [fst snd] in *.
  - discriminate H.
  - split; [exact Hs|]. exists body, h. injection Hr as ->.
    repeat split; assumption.
  - discriminate Hr.
  - discriminate H.
  - injection H as H _.
    destruct (fst (fetch_avatar_url W n uid api_token size _));
      discriminate H.
Qed.

(** X6: whatever the replies are, the resolver leaves the files alone,
    never sets the clock back, and sends at most one request more than
    the nested calls it is allowed. *)
Theorem resolver_is_bounded retries uid api_token size :
  forall s,
    let s' := snd (fetch_avatar_url W retries uid api_token size s) in
    fs s' = fs s
    /\ (now s <= now s')%Q
    /\ (sent s <= sent s' <= sent s + S retries)%nat.
Proof.
  induction retries as [|n IH]; intros s s'; subst s';
    destruct (fetch_step 0 uid api_token size s)
      as [[_ H0] | [(_ & H0 & _) | [(d0 & Hd0 & _ & H0) | (d0 & n0 & _ & Hn0 & _)]]];
    try discriminate Hn0.
  all: try (rewrite H0; cbn; repeat split; first [lra | lia]).
  all: clear H0.
  all: destruct (fetch_step (S n) uid api_token size s)
      as [[_ H] | [(_ & H & _) | [(d & Hd & Hn & H) | (d & m & Hd & Hm & H)]]];
    try discriminate Hn.
  all: try (rewrite H; cbn; repeat split; first [lra | lia]).
  all: injection Hm as <-.
  all: rewrite H; cbn [snd].
  all: destruct (IH (after_sleep d
                  (after_get (lookup_url uid) (lookup_headers api_token) 10 s)))
      as (Hf & Hnow & Hsent).
  all: cbn in Hf, Hnow, Hsent.
  all: rewrite Hf; repeat split; first [lra | lia].
Qed.


(** X8: a reply taken for a rate limit whose [retry_after] cannot be
    slept makes the resolver raise right after the lookup, without a
    sleep and without a retry: [KeyError] when it is missing, [TypeError]
    when it is not a number, [OverflowError] when it is below -9223372037
    or above 9223372037 seconds (the conversion comes before the test of
    the sign), and [ValueError] when it is negative and not below
    -9223372036 seconds. *)
Theorem unusable_retry_after_no_retry
  retries uid api_token size s body msg :
  is_number uid = true ->
  api W (sent s) (lookup_url uid) (lookup_headers api_token)
    = Response (Ok body) ->
  body !! "avatar" = None ->
  body !! "message" = Some (JStr msg) ->
  PyStr.contains "401: unauthorized" (PyStr.lower msg) = false ->
  PyStr.contains "limit" (PyStr.lower msg) = true ->
  match body !! "retry_after" with
  | None => True
  | Some v =>
      match as_seconds v with
      | None => True
      | Some d =>
          (d < -9223372037)%Q \/ (9223372037 < d)%Q
          \/ ((-9223372036 <= d)%Q /\ (d < 0)%Q)
      end
  end ->
  fetch_avatar_url W retries uid api_token size s
  = (Raise (match body !! "retry_after" with
            | None => KeyError "retry_after"
            | Some v =>
                match as_seconds v with
                | None => TypeError
                | Some d =>
                    if (Qle_bool (-9223372036) d && Qle_bool d 0)%bool
                    then ValueError
                    else OverflowError
                end
            end),
     after_get (lookup_url uid) (lookup_headers api_token) 10 s).
Proof.
  intros Hnum Hapi Hav Hmsg H401 Hlim Hbad.
  rewrite (fetch_on_reply W _ _ _ _ _ body Hnum Hapi), Hav.
  unfold bind at 1. unfold message_lower. rewrite Hmsg.
  unfold ret at 1. rewrite H401, Hlim.
  unfold bind at 1. unfold sleep_retry_after, time_sleep, sleep_for.
  destruct (body !! "retry_after") as [v|]; [|reflexivity].
  destruct (as_seconds v) as [d|]; [|reflexivity].
  assert (Hmin : (sleep_min < -9223372036)%Q
                 /\ (-9223372037 < sleep_min)%Q
                 /\ (sleep_max < 9223372037)%Q)
    by (unfold sleep_min, sleep_max, Qlt; simpl; lia).
  destruct Hmin as (Hmin1 & Hmin2 & Hmax).
  unfold in_sleep_range.
  destruct Hbad as [Hlow | [Hhigh | [Hin Hneg]]].
  - replace (Qle_bool sleep_min d) with false
      by (symmetry; apply not_true_is_false; intros H;
          apply Qle_bool_iff in H; lra).
    replace (Qle_bool (-9223372036) d) with false
      by (symmetry; apply not_true_is_false; intros H;
          apply Qle_bool_iff in H; lra).
    reflexivity.
  - replace (Qle_bool d sleep_max) with false
      by (symmetry; apply not_true_is_false; intros H;
          apply Qle_bool_iff in H; lra).
    replace (Qle_bool d 0) with false
      by (symmetry; apply not_true_is_false; intros H;
          apply Qle_bool_iff in H; lra).
    rewrite !andb_false_r. reflexivity.
  - replace (Qle_bool sleep_min d) with true
      by (symmetry; apply Qle_bool_iff; lra).
    replace (Qle_bool d sleep_max) with true
      by (symmetry; apply Qle_bool_iff;
          apply Qle_trans with 0%Q; [lra|];
          unfold sleep_max, Qle; simpl; lia).
    replace (Qle_bool (-9223372036) d) with true
      by (symmetry; apply Qle_bool_iff; lra).
    replace (Qle_bool d 0) with true
      by (symmetry; apply Qle_bool_iff; lra).
    replace (Qle_bool 0 d) with false
      by (symmetry; apply not_true_is_false; intros H;
          apply Qle_bool_iff in H; lra).
    reflexivity.
Qed.

(** X9: a reply that has neither an [avatar] field nor a message that is
    a string is not classified at all: [KeyError] (no message) or
    [AttributeError] (a message that has no [lower]) comes out instead of
    [DiscordAPIError], right after the lookup. *)
Theorem body_without_message_escapes
  retries uid api_token size s body :
  is_number uid = true ->
  api W (sent s) (lookup_url uid) (lookup_headers api_token)
    = Response (Ok body) ->
  body !! "avatar" = None ->
  (forall m, body !! "message" <> Some (JStr m)) ->
  fetch_avatar_url W retries uid api_token size s
  = (Raise (match body !! "message" with
            | None => KeyError "message"
            | Some _ => AttributeError
            end),
     after_get (lookup_url uid) (lookup_headers api_token) 10 s).
Proof.
  intros Hnum Hapi Hav Hmsg.
  rewrite (fetch_on_reply W _ _ _ _ _ body Hnum Hapi), Hav.
  unfold bind at 1. unfold message_lower.
  destruct (body !! "message") as [[| | | |m| |]|]; try reflexivity.
  now destruct (Hmsg m).
Qed.

End ResolverCases.

(** ** More on the downloader *)

Section DownloaderCases.
Context {image : Type} (W : services image).
Variable MAIN_DIR : PyPath.Path.
Variable AVATAR_DIR : PyPath.Path.
Local Open Scope py_scope.

(** Once the link is there, the downloader prints it and asks the CDN,
    and adds at most a write after that. *)
Lemma fetch_image_log url img_path s1 :
  exists tail,
    log (snd (fetch_image W url img_path s1))
    = tail ++ (now s1, EvUrlopen url cdn_headers 10)
           :: (now s1, EvPrint (cursor_up_clear +:+ url)) :: log s1.
Proof.
  unfold fetch_image. unfold bind at 1. unfold emit at 1.
  unfold bind at 1. unfold urlopen_read at 1.
  cbn [sent record count_request now log].
  destruct (cdn W (sent s1) url cdn_headers) as [bytes|e];
    [| exists []; reflexivity].
  unfold bind at 1. destruct bytes as [|b bs]; [exists []; reflexivity|].
  cbn [cv2_imdecode]. unfold ret at 1.
  unfold bind at 1. unfold cv2_imwrite.
  destruct (decode W IMREAD_UNCHANGED (b :: bs)); [|exists []; reflexivity].
  destruct (encoder W (PyPath.to_str img_path)); [|exists []; reflexivity].
  destruct (writable W (PyPath.to_str img_path)).
  - eexists [_]. reflexivity.
  - exists []. reflexivity.
Qed.

(** The run of the downloader once the resolver gave a link. *)
Lemma download_with_link retries uid api_token size s url s1 :
  fetch_avatar_url W retries uid api_token size (paced s)
    = (Ok (Some url), s1) ->
  exists img_path,
    get_avatar_path MAIN_DIR AVATAR_DIR uid = Ok img_path
    /\ download_avatar W MAIN_DIR AVATAR_DIR retries uid api_token size s
       = match fetch_image W url img_path s1 with
         | (Ok a, s2) => (Ok a, s2)
         | (Raise e, s2) => (Raise (reported e), s2)
         end.
Proof.
  intros Hfetch.
  destruct (fetch_returns_link W _ _ _ _ _ _ _ Hfetch) as [h Hurl].
  eexists. split; [reflexivity|].
  rewrite download_avatar_eq, Hfetch.
  assert (Htruthy : truthy (Some url) = true) by (rewrite Hurl; reflexivity).
  rewrite Htruthy. reflexivity.
Qed.

(** The rest of a download whose bytes decode. *)
Lemma fetch_image_decoded url img_path s1 b bs im enc :
  cdn W (sent s1) url cdn_headers = Ok (b :: bs) ->
  decode W IMREAD_UNCHANGED (b :: bs) = Some im ->
  encoder W (PyPath.to_str img_path) = Some enc ->
  let s2 :=
    count_request
      (record (EvUrlopen url cdn_headers 10)
         (record (EvPrint (cursor_up_clear +:+ url)) s1)) in
  fetch_image W url img_path s1
  = (Ok tt,
     if writable W (PyPath.to_str img_path) then
       mkState (now s2)
         ((now s2, EvImwrite (PyPath.to_str img_path)) :: log s2) (sent s2)
         (<[PyPath.to_str img_path := enc im]> (fs s2))
     else s2).
Proof.
  intros Hcdn Hdec Henc s2.
  unfold fetch_image. unfold bind at 1. unfold emit at 1.
  unfold bind at 1. unfold urlopen_read at 1.
  cbn [sent record count_request]. rewrite Hcdn.
  unfold bind at 1. cbn [cv2_imdecode]. rewrite Hdec. unfold ret at 1.
  unfold bind at 1. unfold cv2_imwrite. rewrite Henc.
  destruct (writable W (PyPath.to_str img_path)); reflexivity.
Qed.

(** X10: when the resolver gives a link, the CDN sends bytes that decode
    to an image, and the cache path has an encoder and can be written,
    the downloader returns normally and the files are the old ones with
    the encoded image at the effect-0 path of the identifier (whatever
    was there before is replaced). *)
Theorem download_writes_entry
  retries uid api_token size s url s1 b bs im img_path enc :
  fetch_avatar_url W retries uid api_token size (paced s)
    = (Ok (Some url), s1) ->
  cdn W (sent s1) url cdn_headers = Ok (b :: bs) ->
  decode W IMREAD_UNCHANGED (b :: bs) = Some im ->
  get_avatar_path MAIN_DIR AVATAR_DIR uid = Ok img_path ->
  encoder W (PyPath.to_str img_path) = Some enc ->
  writable W (PyPath.to_str img_path) = true ->
  let r := download_avatar W MAIN_DIR AVATAR_DIR retries uid api_token size
             s in
  fst r = Ok tt
  /\ fs (snd r) = <[PyPath.to_str img_path := enc im]> (fs s)
  /\ sent (snd r) = S (sent s1).
Proof.
  intros Hfetch Hcdn Hdec Hpath Henc Hw r. subst r.
  pose proof (fetch_quiet W retries uid api_token size (paced s)) as Hq.
  rewrite Hfetch in Hq. cbn [snd] in Hq. destruct Hq as (_ & _ & _ & Hf).
  destruct (download_with_link _ _ _ _ _ _ _ Hfetch) as (p & Hp & ->).
  rewrite Hpath in Hp. injection Hp as <-.
  rewrite (fetch_image_decoded url img_path s1 b bs im enc Hcdn Hdec Henc),
    Hw.
  cbn. rewrite Hf. repeat split.
Qed.

(** X11: under the same conditions on a path that cannot be written,
    [imwrite] returns [False], which the downloader does not look at: it
    returns normally and no entry is cached. *)
Theorem download_unwritable_is_silent
  retries uid api_token size s url s1 b bs im img_path enc :
  fetch_avatar_url W retries uid api_token size (paced s)
    = (Ok (Some url), s1) ->
  cdn W (sent s1) url cdn_headers = Ok (b :: bs) ->
  decode W IMREAD_UNCHANGED (b :: bs) = Some im ->
  get_avatar_path MAIN_DIR AVATAR_DIR uid = Ok img_path ->
  encoder W (PyPath.to_str img_path) = Some enc ->
  writable W (PyPath.to_str img_path) = false ->
  let r := download_avatar W MAIN_DIR AVATAR_DIR retries uid api_token size
             s in
  fst r = Ok tt /\ fs (snd r) = fs s.
Proof.
  intros Hfetch Hcdn Hdec Hpath Henc Hw r. subst r.
  pose proof (fetch_quiet W retries uid api_token size (paced s)) as Hq.
  rewrite Hfetch in Hq. cbn [snd] in Hq. destruct Hq as (_ & _ & _ & Hf).
  destruct (download_with_link _ _ _ _ _ _ _ Hfetch) as (p & Hp & ->).
  rewrite Hpath in Hp. injection Hp as <-.
  rewrite (fetch_image_decoded url img_path s1 b bs im enc Hcdn Hdec Henc),
    Hw.
  cbn. rewrite Hf. split; reflexivity.
Qed.

(** X12: when the request to the CDN fails, [URLError] comes out as
    [ConnectionError] and any other exception as it is; nothing is
    decoded or written. *)
Theorem cdn_failure_is_reported
  retries uid api_token size s url s1 e :
  fetch_avatar_url W retries uid api_token size (paced s)
    = (Ok (Some url), s1) ->
  cdn W (sent s1) url cdn_headers = Raise e ->
  download_avatar W MAIN_DIR AVATAR_DIR retries uid api_token size s
  = (Raise (match e with
            | URLError => ConnectionError
            | _ => e
            end),
     count_request
       (record (EvUrlopen url cdn_headers 10)
          (record (EvPrint (cursor_up_clear +:+ url)) s1)))
  /\ fs s1 = fs s.
Proof.
  intros Hfetch Hcdn.
  pose proof (fetch_quiet W retries uid api_token size (paced s)) as Hq.
  rewrite Hfetch in Hq. cbn [snd] in Hq. destruct Hq as (_ & _ & _ & Hf).
  split; [|exact Hf].
  destruct (download_with_link _ _ _ _ _ _ _ Hfetch) as (p & Hp & ->).
  unfold fetch_image. unfold bind at 1. unfold emit at 1.
  unfold bind at 1. unfold urlopen_read at 1.
  cbn [sent record count_request]. rewrite Hcdn.
  destruct e; reflexivity.
Qed.

(** X13: an exception of the resolver comes out of the downloader as it
    is (only [URLError] is turned into [ConnectionError]), in the state
    the resolver left: the CDN is not asked and nothing is written. *)
Theorem resolver_failure_passes_through
  retries uid api_token size s e s1 :
  fetch_avatar_url W retries uid api_token size (paced s) = (Raise e, s1) ->
  download_avatar W MAIN_DIR AVATAR_DIR retries uid api_token size s
  = (Raise (match e with
            | URLError => ConnectionError
            | _ => e
            end), s1)
  /\ quiet s s1.
Proof.
  intros Hfetch.
  pose proof (fetch_quiet W retries uid api_token size (paced s)) as Hq.
  rewrite Hfetch in Hq. cbn [snd] in Hq.
  split.
  - rewrite download_avatar_eq, Hfetch. destruct e; reflexivity.
  - exact (quiet_trans _ _ _ (quiet_sleep (1 # 100) s) Hq).
Qed.

(** X14: every call of the downloader starts with the pacing sleep of
    0.01 s, whatever the identifier and the replies are; everything else
    it does comes after. *)
Theorem download_always_paces retries uid api_token size s :
  exists tail,
    log (snd (download_avatar W MAIN_DIR AVATAR_DIR retries uid api_token
                size s))
    = tail ++ (now s, EvSleep (1 # 100)) :: log s.
Proof.
  destruct (fetch_quiet W retries uid api_token size (paced s))
    as (t & Hl & _ & _).
  rewrite download_avatar_eq.
  destruct (fetch_avatar_url W retries uid api_token size (paced s))
    as [[v|e] s1] eqn:Hfetch; cbn [snd] in Hl.
  - destruct (truthy v); [| exists t; exact Hl].
    unfold get_avatar_path, get_avatar_dir.
    match goal with
    | |- context [fetch_image W ?u ?p s1] =>
        destruct (fetch_image_log u p s1) as (t2 & Hl2);
        destruct (fetch_image W u p s1) as [[[]|e] s2]
    end; cbn [snd] in *; rewrite Hl2, Hl;
      eexists (t2 ++ _ :: _ :: t); rewrite <- app_assoc; reflexivity.
  - exists t. exact Hl.
Qed.


End DownloaderCases.

(** ** More on the cache paths and the effect processor *)

Module PathCases.
Import PyStr PyPath PathFacts.

Lemma append_inv_head s : forall a b, s +:+ a = s +:+ b -> a = b.
Proof.
  induction s as [|c s IH]; intros a b H; [exact H|].
  apply IH. change (String c (s +:+ a) = String c (s +:+ b)) in H.
  now injection H.
Qed.

Lemma join_with_last sep ps :
  forall n1 n2,
    join_with sep (ps ++ [n1]) = join_with sep (ps ++ [n2]) -> n1 = n2.
Proof.
  induction ps as [|x r IH]; intros n1 n2 H; [exact H|].
  apply IH.
  assert (Hcons : forall n,
             join_with sep ((x :: r) ++ [n])
             = x +:+ sep +:+ join_with sep (r ++ [n])).
  { intros n. simpl. destruct (r ++ [n]) eqn:Hr; [|reflexivity].
    now destruct r. }
  rewrite !Hcons in H.
  apply append_inv_head in H. now apply append_inv_head in H.
Qed.

Lemma no_sep_not_rooted s : no_sep s = true -> rooted s = false.
Proof.
  destruct s as [|c r]; [reflexivity|]. simpl. intros H.
  apply andb_true_iff in H as [H _]. now apply negb_true_iff in H.
Qed.

(** A segment without separators that has more than one character is
    appended to [AVATAR_DIR] as one component; [MAIN_DIR] plays no role. *)
Lemma one_component main_dir avatar_dir seg :
  no_sep seg = true -> (1 < String.length seg)%nat ->
  abs_dir main_dir [Absolute avatar_dir; Segment seg]
  = mkPath (anchor avatar_dir) (parts avatar_dir ++ [seg]).
Proof.
  intros Hs Hlen. unfold abs_dir, joinpath. cbn [fold_left join].
  rewrite (no_sep_not_rooted seg Hs). unfold components.
  rewrite components_from_no_sep by exact Hs.
  change ("" +:+ seg) with seg. unfold keep.
  destruct seg as [|a [|b r]]; simpl in Hlen; try lia.
  assert (H1 : String.eqb (String a (String b r)) "" = false) by reflexivity.
  assert (H2 : String.eqb (String a (String b r)) "." = false).
  { cbn [String.eqb]. destruct (Ascii.eqb a "."); reflexivity. }
  rewrite H1, H2. reflexivity.
Qed.

Lemma digit_char_plain d : (0 <= d < 10)%Z -> is_sep (digit_char d) = false.
Proof.
  intros Hd.
  assert (Hcases : (d = 0 \/ d = 1 \/ d = 2 \/ d = 3 \/ d = 4 \/ d = 5
                    \/ d = 6 \/ d = 7 \/ d = 8 \/ d = 9)%Z) by lia.
  repeat (destruct Hcases as [-> | Hcases]); try subst d; reflexivity.
Qed.

Lemma pos_digits_no_sep fuel :
  forall n acc, no_sep acc = true -> no_sep (pos_digits fuel n acc) = true.
Proof.
  induction fuel as [|f IH]; intros n acc Hacc; [exact Hacc|].
  cbn [pos_digits].
  assert (Hd : no_sep (String (digit_char (n mod 10)) acc) = true).
  { cbn [no_sep]. rewrite digit_char_plain, Hacc; [reflexivity|].
    apply Z.mod_pos_bound. lia. }
  destruct (n <? 10)%Z; [exact Hd | now apply IH].
Qed.

Lemma str_of_int_no_sep n : no_sep (str_of_int n) = true.
Proof.
  unfold str_of_int, str_of_nonneg.
  destruct (n <? 0)%Z; [cbn [no_sep]; cbn [is_sep Ascii.eqb orb negb andb]|];
    now apply pos_digits_no_sep.
Qed.

Lemma str_of_int_digit_inj e f :
  (0 <= e <= 9)%Z -> (0 <= f <= 9)%Z ->
  str_of_int e = str_of_int f -> e = f.
Proof.
  intros He Hf.
  assert (He' : (e = 0 \/ e = 1 \/ e = 2 \/ e = 3 \/ e = 4 \/ e = 5
                 \/ e = 6 \/ e = 7 \/ e = 8 \/ e = 9)%Z) by lia.
  assert (Hf' : (f = 0 \/ f = 1 \/ f = 2 \/ f = 3 \/ f = 4 \/ f = 5
                 \/ f = 6 \/ f = 7 \/ f = 8 \/ f = 9)%Z) by lia.
  repeat (destruct He' as [-> | He']); try subst e;
    repeat (destruct Hf' as [-> | Hf']); try subst f;
    vm_compute; intros H; first [reflexivity | discriminate H].
Qed.

Section WithDirs.
Variable MAIN_DIR : Path.
Variable AVATAR_DIR : Path.

(** The cache path of an identifier without separators. *)
Lemma cache_path_shape uid effect :
  no_sep uid = true ->
  get_avatar_dir MAIN_DIR AVATAR_DIR (Some uid) None effect
  = Ok (mkPath (anchor AVATAR_DIR)
          (parts AVATAR_DIR ++ [str_of_int effect +:+ "_" +:+ uid +:+ ".png"])).
Proof.
  intros Hu. unfold get_avatar_dir. f_equal.
  apply one_component.
  - apply no_sep_append; [apply str_of_int_no_sep|].
    change ("_" +:+ uid +:+ ".png") with (String "_" (uid +:+ ".png")).
    cbn [no_sep]. cbn [is_sep Ascii.eqb orb negb andb].
    apply no_sep_append; [exact Hu | reflexivity].
  - rewrite length_append.
    change ("_" +:+ uid +:+ ".png") with (String "_" (uid +:+ ".png")).
    cbn [String.length]. rewrite length_append.
    change (String.length ".png") with 4%nat. lia.
Qed.

(** X16: for an identifier that passes the numeric check and any effect
    code of fewer than 640 digits (for which [str] is defined whatever
    the interpreter's digit limit is), the cache path is the single
    component [{effect}_{uid}.png] directly below [AVATAR_DIR]: the
    identifier cannot make it leave the directory, and [MAIN_DIR] does
    not matter. *)
Theorem cache_path_is_in_avatar_dir uid effect :
  is_number uid = true -> (Z.abs effect < 10 ^ 640)%Z ->
  get_avatar_dir MAIN_DIR AVATAR_DIR (Some uid) None effect
  = Ok (mkPath (anchor AVATAR_DIR)
          (parts AVATAR_DIR ++ [str_of_int effect +:+ "_" +:+ uid +:+ ".png"])).
Proof.
  intros Hnum _. apply cache_path_shape.
  now apply FloatFacts.is_number_no_sep.
Qed.

(** For one-digit effect codes, the path derived from a cache path is
    the path itself exactly when the effect code is the same. *)
Lemma derived_path_str uid e f og fx :
  is_number uid = true -> (0 <= e <= 9)%Z -> (0 <= f <= 9)%Z ->
  get_avatar_dir MAIN_DIR AVATAR_DIR (Some uid) None e = Ok og ->
  get_avatar_dir MAIN_DIR AVATAR_DIR None (Some og) f = Ok fx ->
  to_str fx = to_str og -> e = f.
Proof.
  intros Hnum He Hf Hog Hfx Hstr.
  destruct (cache_path_roundtrip MAIN_DIR AVATAR_DIR uid e f
              (FloatFacts.is_number_no_sep uid Hnum) He)
    as (p & Hp & _ & Hround).
  rewrite Hog in Hp. injection Hp as <-. rewrite Hfx in Hround.
  rewrite cache_path_shape in Hog, Hround
    by now apply FloatFacts.is_number_no_sep.
  injection Hog as <-. injection Hround as ->.
  unfold to_str in Hstr. cbn [anchor parts] in Hstr.
  apply append_inv_head, join_with_last in Hstr.
  apply str_of_int_digit_inj; try assumption.
  destruct (str_of_int_digit e He) as (ce & Hce & _).
  destruct (str_of_int_digit f Hf) as (cf & Hcf & _).
  rewrite Hce, Hcf in *.
  change (String cf (String "_" (uid +:+ ".png"))
          = String ce (String "_" (uid +:+ ".png"))) in Hstr.
  now injection Hstr as ->.
Qed.

End WithDirs.
End PathCases.

Section EffectCases.
Context {image : Type} (W : services image).
Variable MAIN_DIR : PyPath.Path.
Variable AVATAR_DIR : PyPath.Path.
Local Open Scope py_scope.

(** The effect processor on an entry that [imread] can read. *)
Lemma artistic_effect_readable og_dir effect s bytes im fx_dir enc :
  effect <> 0%Z ->
  fs s !! PyPath.to_str og_dir = Some bytes ->
  decode W IMREAD_COLOR bytes = Some im ->
  get_avatar_dir MAIN_DIR AVATAR_DIR None (Some og_dir) effect = Ok fx_dir ->
  encoder W (PyPath.to_str fx_dir) = Some enc ->
  artistic_effect W MAIN_DIR AVATAR_DIR og_dir effect s
  = (Ok fx_dir,
     let s1 := record (EvImread (PyPath.to_str og_dir)) s in
     let out := if (effect =? 1)%Z then bgr2gray W im else im in
     if writable W (PyPath.to_str fx_dir) then
       mkState (now s1) ((now s1, EvImwrite (PyPath.to_str fx_dir)) :: log s1)
               (sent s1) (<[PyPath.to_str fx_dir := enc out]> (fs s1))
     else s1).
Proof.
  intros H0 Hfile Hdec Hfx Henc.
  apply Z.eqb_neq in H0.
  unfold artistic_effect. rewrite H0, Hfx. cbn [negb of_result].
  unfold bind at 1. unfold cv2_imread. rewrite Hfile, Hdec.
  destruct (effect =? 1)%Z;
    unfold bind at 1; cbn [cv2_cvtColor_gray]; unfold ret at 1;
    unfold bind at 1; unfold ret at 1;
    unfold bind at 1; unfold cv2_imwrite; rewrite Henc;
    destruct (writable W (PyPath.to_str fx_dir)); reflexivity.
Qed.

(** X17: with effect code 1, on a base entry that exists and decodes,
    the effect processor writes the grey-scale conversion of the image
    to the path of effect 1 and returns that path. *)
Theorem grayscale_is_written og_dir s bytes im fx_dir enc :
  fs s !! PyPath.to_str og_dir = Some bytes ->
  decode W IMREAD_COLOR bytes = Some im ->
  get_avatar_dir MAIN_DIR AVATAR_DIR None (Some og_dir) 1 = Ok fx_dir ->
  encoder W (PyPath.to_str fx_dir) = Some enc ->
  writable W (PyPath.to_str fx_dir) = true ->
  let r := artistic_effect W MAIN_DIR AVATAR_DIR og_dir 1 s in
  fst r = Ok fx_dir
  /\ fs (snd r)
     = <[PyPath.to_str fx_dir := enc (bgr2gray W im)]> (fs s).
Proof.
  intros Hfile Hdec Hfx Henc Hw r. subst r.
  rewrite (artistic_effect_readable og_dir 1 s bytes im fx_dir enc
             ltac:(discriminate) Hfile Hdec Hfx Henc), Hw.
  split; reflexivity.
Qed.

(** X18: with a non-zero effect code, on a base entry that is missing or
    does not decode, the effect processor raises ([cv2.error], or the
    [ValueError] of [get_avatar_dir] when the path has no suffix) after
    the read, and writes nothing. *)
Theorem unreadable_entry_raises og_dir effect s :
  effect <> 0%Z ->
  match fs s !! PyPath.to_str og_dir with
  | Some bytes => decode W IMREAD_COLOR bytes = None
  | None => True
  end ->
  exists e,
    artistic_effect W MAIN_DIR AVATAR_DIR og_dir effect s
    = (Raise e, record (EvImread (PyPath.to_str og_dir)) s)
    /\ (e = Cv2Error \/ e = ValueError).
Proof.
  intros H0 Hread. apply Z.eqb_neq in H0.
  unfold artistic_effect. rewrite H0. cbn [negb].
  unfold bind at 1. unfold cv2_imread.
  assert (Hnone : match fs s !! PyPath.to_str og_dir with
                  | Some bytes => decode W IMREAD_COLOR bytes
                  | None => None
                  end = None).
  { destruct (fs s !! PyPath.to_str og_dir); [exact Hread | reflexivity]. }
  rewrite Hnone.
  destruct (effect =? 1)%Z.
  - exists Cv2Error. split; [reflexivity | now left].
  - unfold bind at 1. unfold ret at 1. unfold bind at 1.
    unfold get_avatar_dir.
    destruct (String.eqb (PyPath.stem og_dir) (PyPath.name og_dir)).
    + exists ValueError. split; [reflexivity | now right].
    + exists Cv2Error. split; [reflexivity | now left].
Qed.

(** X19: applied to the cache path of an identifier under a one-digit
    effect code [e], with a different one-digit effect code [f], the
    effect processor leaves the source entry as it is, whether it
    succeeds or raises. *)
Theorem effect_keeps_source uid e f og_dir s :
  is_number uid = true -> (0 <= e <= 9)%Z -> (0 <= f <= 9)%Z -> e <> f ->
  get_avatar_dir MAIN_DIR AVATAR_DIR (Some uid) None e = Ok og_dir ->
  fs (snd (artistic_effect W MAIN_DIR AVATAR_DIR og_dir f s))
    !! PyPath.to_str og_dir
  = fs s !! PyPath.to_str og_dir.
Proof.
  intros Hnum He Hf Hne Hog.
  unfold artistic_effect.
  destruct (f =? 0)%Z; cbn [negb]; [reflexivity|].
  unfold bind at 1. unfold cv2_imread.
  set (img := match fs s !! PyPath.to_str og_dir with
              | Some bytes => decode W IMREAD_COLOR bytes
              | None => None
              end).
  assert (Hwrite : forall out,
    fs (snd ((fx_dir <- of_result
                (get_avatar_dir MAIN_DIR AVATAR_DIR None (Some og_dir) f) ;;
              cv2_imwrite W (PyPath.to_str fx_dir) out ;;;
              ret fx_dir)
               (record (EvImread (PyPath.to_str og_dir)) s)))
      !! PyPath.to_str og_dir
    = fs s !! PyPath.to_str og_dir).
  { intros out.
    destruct (get_avatar_dir MAIN_DIR AVATAR_DIR None (Some og_dir) f)
      as [fx|err] eqn:Hfx; cbn [of_result]; [|reflexivity].
    unfold bind at 1. unfold ret at 1. unfold bind at 1.
    unfold cv2_imwrite.
    destruct out as [im|]; [|reflexivity].
    destruct (encoder W (PyPath.to_str fx)); [|reflexivity].
    destruct (writable W (PyPath.to_str fx)); [|reflexivity].
    cbn. apply lookup_insert_ne. intros Hstr. apply Hne.
    exact (PathCases.derived_path_str MAIN_DIR AVATAR_DIR uid e f og_dir fx
             Hnum He Hf Hog Hfx Hstr). }
  destruct (f =? 1)%Z.
  - unfold bind at 1. destruct img as [im|]; cbn [cv2_cvtColor_gray];
      [unfold ret at 1; apply Hwrite | reflexivity].
  - unfold bind at 1. unfold ret at 1. apply Hwrite.
Qed.

End EffectCases.

(** ** More on the numeric check *)

Module NumberCases.
Import PyStr PyFloat.

Lemma digit_kind c :
  is_digit c = true ->
  is_space c = false /\ Ascii.eqb c "_" = false
  /\ Ascii.eqb c "-" = false /\ Ascii.eqb c "+" = false.
Proof.
  destruct c as [[] [] [] [] [] [] [] []]; vm_compute; intros H;
    first [discriminate H | repeat split].
Qed.

Lemma lstrip_digit c r : is_digit c = true -> lstrip (c :: r) = c :: r.
Proof.
  intros H. destruct (digit_kind c H) as (Hs & _). simpl. now rewrite Hs.
Qed.

Lemma strip_digits l :
  Forall (fun c => is_digit c = true) l -> strip l = l.
Proof.
  intros Hl. unfold strip.
  destruct l as [|c r]; [reflexivity|].
  inversion Hl as [|? ? Hc Hr]; subst.
  rewrite (lstrip_digit c r Hc).
  assert (Hrev : Forall (fun c => is_digit c = true) (rev (c :: r)))
    by now apply Forall_rev.
  destruct (rev (c :: r)) as [|c' r'] eqn:Heq.
  - apply (f_equal (@rev ascii)) in Heq. rewrite rev_involutive in Heq.
    discriminate Heq.
  - inversion Hrev; subst. rewrite lstrip_digit by assumption.
    rewrite <- Heq. apply rev_involutive.
Qed.

Lemma remove_underscores_digits l :
  forall prev,
    Forall (fun c => is_digit c = true) l ->
    match prev with Some p => Ascii.eqb p "_" = false | None => True end ->
    remove_underscores prev l = Some l.
Proof.
  induction l as [|c r IH]; intros prev Hl Hprev.
  - destruct prev as [p|]; simpl; [now rewrite Hprev | reflexivity].
  - inversion Hl as [|? ? Hc Hr]; subst.
    destruct (digit_kind c Hc) as (_ & Hu & _).
    simpl. rewrite Hu.
    assert (Hbad : match prev with
                   | Some p => (Ascii.eqb p "_" && negb (is_digit c))%bool
                   | None => false
                   end = false).
    { destruct prev as [p|]; [now rewrite Hprev | reflexivity]. }
    rewrite Hbad, (IH (Some c) Hr Hu). reflexivity.
Qed.

Lemma span_digits_all l :
  Forall (fun c => is_digit c = true) l -> span_digits l = (l, []).
Proof.
  induction 1 as [|c r Hc Hr IH]; [reflexivity|].
  simpl. now rewrite Hc, IH.
Qed.

(** X20: every non-empty string of decimal digits passes the numeric
    check, so every account identifier as Discord writes it reaches the
    lookup. *)
Theorem digits_pass_the_check s :
  s <> "" -> Forall (fun c => is_digit c = true) (chars s) ->
  is_number s = true.
Proof.
  intros Hne Hl. unfold is_number, float.
  rewrite (strip_digits _ Hl), (remove_underscores_digits _ None Hl I).
  destruct (chars s) as [|c r] eqn:Hs.
  { destruct s; [now destruct Hne | discriminate Hs]. }
  inversion Hl as [|? ? Hc Hr]; subst.
  destruct (digit_kind c Hc) as (_ & _ & Hm & Hp).
  unfold take_sign. rewrite Hm, Hp.
  unfold take_decimal. rewrite (span_digits_all _ Hl). reflexivity.
Qed.

Lemma lstrip_spaces l : Forall (fun c => is_space c = true) l -> lstrip l = [].
Proof. induction 1 as [|c r Hc Hr IH]; simpl; [|rewrite Hc]; auto. Qed.

(** X21: the empty string and every string of white space only fail the
    numeric check. *)
Theorem blank_fails_the_check s :
  Forall (fun c => is_space c = true) (chars s) -> is_number s = false.
Proof.
  intros Hl. unfold is_number, float, strip.
  rewrite (lstrip_spaces _ Hl). reflexivity.
Qed.

End NumberCases.

(** ** [fetch_latest_version] *)

Module ReleaseCases.
Import PyStr PyText.

Lemma lstrip_v_shape t :
  exists k,
    t = times "v" k +:+ lstrip_chars "v" t
    /\ String.prefix "v" (lstrip_chars "v" t) = false.
Proof.
  induction t as [|c r (k & Hk & Hp)].
  - exists O. split; reflexivity.
  - cbn [lstrip_chars occurs orb].
    destruct (Ascii.eqb c "v") eqn:Hc; cbn [orb].
    + apply Ascii.eqb_eq in Hc. subst c. exists (S k). split; [|exact Hp].
      change (String "v" r
              = String "v" (times "v" k +:+ lstrip_chars "v" r)).
      now f_equal.
    + exists O. split; [reflexivity|].
      cbn [String.prefix]. destruct (ascii_dec "v" c) as [<-|]; [|reflexivity].
      discriminate Hc.
Qed.

Lemma before_first_shape sep text :
  occurs sep (before_first sep text) = false
  /\ exists rest,
       text = before_first sep text +:+ rest
       /\ (rest = "" \/ exists r, rest = String sep r).
Proof.
  induction text as [|c r (Ho & rest & Hr & Hrest)].
  - split; [reflexivity|]. exists "". split; [reflexivity | now left].
  - cbn [before_first].
    destruct (Ascii.eqb c sep) eqn:Hc.
    + apply Ascii.eqb_eq in Hc. subst c. split; [reflexivity|].
      exists (String sep r). split; [reflexivity | right; now exists r].
    + split.
      * cbn [occurs]. rewrite Ascii.eqb_sym, Hc. exact Ho.
      * exists rest. split; [|exact Hrest].
        change (String c r = String c (before_first sep r +:+ rest)).
        now f_equal.
Qed.

(** X22: on a reply whose [tag_name] and [body] are strings,
    [fetch_latest_version] makes one request and returns the tag without
    its leading [v]s (all of them, the rest untouched) and the first line
    of the body (what is before the first newline, or all of it). *)
Theorem latest_version_fields
  {image : Type} (W : services image) s body tag_name text :
  api W (sent s) latest_release_api [] = Response (Ok body) ->
  body !! "tag_name" = Some (JStr tag_name) ->
  body !! "body" = Some (JStr text) ->
  exists tag summary,
    fetch_latest_version W s
    = (Ok (tag, summary), after_get latest_release_api [] 3 s)
    /\ (exists k, tag_name = times "v" k +:+ tag)
    /\ String.prefix "v" tag = false
    /\ occurs newline summary = false
    /\ exists rest,
         text = summary +:+ rest
         /\ (rest = "" \/ exists r, rest = String newline r).
Proof.
  intros Hapi Htag Htext.
  exists (lstrip_chars "v" tag_name), (before_first newline text).
  destruct (lstrip_v_shape tag_name) as (k & Hk & Hp).
  destruct (before_first_shape newline text) as (Ho & Hrest).
  split; [| split; [now exists k | split; [exact Hp | split; assumption]]].
  unfold fetch_latest_version. unfold bind at 1. unfold requests_get.
  rewrite Hapi. unfold bind at 1. cbn [of_result]. unfold ret at 1.
  unfold bind at 1. unfold text_field at 1. rewrite Htag. unfold ret at 1.
  unfold bind at 1. unfold text_field at 1. rewrite Htext. reflexivity.
Qed.

End ReleaseCases.

(** ** [hex_to_rgb] *)

Module ColourCases.
Import PyStr PyText.

Lemma hex_digit_not_hash d :
  (0 <= d < 16)%Z -> occurs (hex_digit d) "#" = false.
Proof.
  intros Hd.
  assert (Hc : (d = 0 \/ d = 1 \/ d = 2 \/ d = 3 \/ d = 4 \/ d = 5 \/ d = 6
                \/ d = 7 \/ d = 8 \/ d = 9 \/ d = 10 \/ d = 11 \/ d = 12
                \/ d = 13 \/ d = 14 \/ d = 15)%Z) by lia.
  repeat (destruct Hc as [-> | Hc]); try subst d; reflexivity.
Qed.

Lemma int_two_hex_digits x y :
  (0 <= x < 16)%Z -> (0 <= y < 16)%Z ->
  PyInt.int 0 16 (String (hex_digit x) (String (hex_digit y) ""))
  = Some (16 * x + y)%Z.
Proof.
  intros Hx Hy.
  assert (Hcx : (x = 0 \/ x = 1 \/ x = 2 \/ x = 3 \/ x = 4 \/ x = 5 \/ x = 6
                 \/ x = 7 \/ x = 8 \/ x = 9 \/ x = 10 \/ x = 11 \/ x = 12
                 \/ x = 13 \/ x = 14 \/ x = 15)%Z) by lia.
  assert (Hcy : (y = 0 \/ y = 1 \/ y = 2 \/ y = 3 \/ y = 4 \/ y = 5 \/ y = 6
                 \/ y = 7 \/ y = 8 \/ y = 9 \/ y = 10 \/ y = 11 \/ y = 12
                 \/ y = 13 \/ y = 14 \/ y = 15)%Z) by lia.
  clear Hx Hy.
  repeat (destruct Hcx as [-> | Hcx]); try subst x;
    repeat (destruct Hcy as [-> | Hcy]); try subst y;
    vm_compute; reflexivity.
Qed.

Lemma int_two_hex n :
  (0 <= n < 256)%Z -> PyInt.int 0 16 (two_hex n) = Some n.
Proof.
  intros Hn. unfold two_hex.
  rewrite int_two_hex_digits.
  - f_equal. pose proof (Z.div_mod n 16). lia.
  - split; [apply Z.div_pos; lia | apply Z.div_lt_upper_bound; lia].
  - apply Z.mod_pos_bound. lia.
Qed.

(** X23: [hex_to_rgb] inverts the usual writing of a colour: for three
    channels from 0 to 255, written with two lower-case hexadecimal
    digits each, with or without the leading [#], it returns the three
    channels. *)
Theorem hex_to_rgb_round_trip r g b :
  (0 <= r < 256)%Z -> (0 <= g < 256)%Z -> (0 <= b < 256)%Z ->
  hex_to_rgb ("#" +:+ two_hex r +:+ two_hex g +:+ two_hex b) = Ok (r, g, b)
  /\ hex_to_rgb (two_hex r +:+ two_hex g +:+ two_hex b) = Ok (r, g, b).
Proof.
  intros Hr Hg Hb.
  assert (Hhash : occurs (hex_digit (r / 16)) "#" = false).
  { apply hex_digit_not_hash.
    split; [apply Z.div_pos; lia | apply Z.div_lt_upper_bound; lia]. }
  assert (Hplain :
    hex_to_rgb (two_hex r +:+ two_hex g +:+ two_hex b) = Ok (r, g, b)).
  { unfold hex_to_rgb.
    change (two_hex r +:+ two_hex g +:+ two_hex b)
      with (String (hex_digit (r / 16))
              (String (hex_digit (r mod 16)) (two_hex g +:+ two_hex b))).
    cbn [lstrip_chars]. rewrite Hhash.
    change (slice 0 2 (String (hex_digit (r / 16))
              (String (hex_digit (r mod 16)) (two_hex g +:+ two_hex b))))
      with (two_hex r).
    change (slice 2 4 (String (hex_digit (r / 16))
              (String (hex_digit (r mod 16)) (two_hex g +:+ two_hex b))))
      with (two_hex g).
    change (slice 4 6 (String (hex_digit (r / 16))
              (String (hex_digit (r mod 16)) (two_hex g +:+ two_hex b))))
      with (two_hex b).
    now rewrite !int_two_hex. }
  split; [|exact Hplain].
  rewrite <- Hplain. unfold hex_to_rgb.
  change (lstrip_chars "#" ("#" +:+ two_hex r +:+ two_hex g +:+ two_hex b))
    with (lstrip_chars "#" (two_hex r +:+ two_hex g +:+ two_hex b)).
  reflexivity.
Qed.

Lemma drop_str_short n : forall s, (String.length s <= n)%nat -> drop_str n s = "".
Proof.
  induction n as [|n IH]; intros [|c r] H; simpl in *; try reflexivity;
    try lia.
  apply IH. lia.
Qed.

(** X24: a colour with fewer than five characters after the leading
    [#]s (the short form [#fff], the empty string) is refused with
    [ValueError]: the slice of the third channel is empty. *)
Theorem hex_to_rgb_short_input hex_val :
  (String.length (lstrip_chars "#" hex_val) <= 4)%nat ->
  hex_to_rgb hex_val = Raise ValueError.
Proof.
  intros Hlen. unfold hex_to_rgb.
  assert (H3 : slice 4 6 (lstrip_chars "#" hex_val) = "").
  { unfold slice. now rewrite drop_str_short. }
  rewrite H3.
  destruct (PyInt.int 0 16 (slice 0 2 _)); [|reflexivity].
  destruct (PyInt.int 0 16 (slice 2 4 _)); reflexivity.
Qed.

Lemma lstrip_chars_append set s t :
  lstrip_chars set s <> "" ->
  lstrip_chars set (s +:+ t) = lstrip_chars set s +:+ t.
Proof.
  induction s as [|c r IH]; intros H; [now destruct H|].
  change (String c r +:+ t) with (String c (r +:+ t)).
  cbn [lstrip_chars] in *.
  destruct (occurs c set); [now apply IH | reflexivity].
Qed.

Lemma take_str_append_long n :
  forall s t, (n <= String.length s)%nat -> take_str n (s +:+ t) = take_str n s.
Proof.
  induction n as [|n IH]; intros [|c r] t H; simpl in *; try reflexivity;
    try lia.
  change (take_str (S n) (String c (r +:+ t)) = String c (take_str n r)).
  cbn [take_str]. f_equal. apply IH. lia.
Qed.

Lemma drop_str_append n :
  forall s t, (n <= String.length s)%nat -> drop_str n (s +:+ t) = drop_str n s +:+ t.
Proof.
  induction n as [|n IH]; intros [|c r] t H; simpl in *; try reflexivity;
    try lia.
  change (drop_str (S n) (String c (r +:+ t)) = drop_str n r +:+ t).
  cbn [drop_str]. apply IH. lia.
Qed.

Lemma length_drop_str n :
  forall s, String.length (drop_str n s) = (String.length s - n)%nat.
Proof.
  induction n as [|n IH]; intros [|c r]; simpl; try reflexivity; try lia.
  apply IH.
Qed.

Lemma slice_append i j s t :
  (i <= j)%nat -> (j <= String.length s)%nat ->
  slice i j (s +:+ t) = slice i j s.
Proof.
  intros Hij Hj. unfold slice.
  rewrite drop_str_append by lia.
  apply take_str_append_long. rewrite length_drop_str. lia.
Qed.

(** X25: only the first six characters after the leading [#]s are read:
    whatever follows them (an alpha channel, anything else) does not
    change the result. *)
Theorem hex_to_rgb_ignores_the_rest hex_val rest :
  (6 <= String.length (lstrip_chars "#" hex_val))%nat ->
  hex_to_rgb (hex_val +:+ rest) = hex_to_rgb hex_val.
Proof.
  intros Hlen. unfold hex_to_rgb.
  rewrite lstrip_chars_append
    by (destruct (lstrip_chars "#" hex_val); [simpl in Hlen; lia | discriminate]).
  rewrite !slice_append by lia. reflexivity.
Qed.

End ColourCases.

(** ** [parse_version] *)

Module VersionCases.
Import PyStr PyText.

Local Abbreviation value :=
  (fold_left (fun a c => (a * 10 + (Z.of_nat (nat_of_ascii c) - 48))%Z)).

Local Abbreviation decimal := (Forall (fun c => is_digit c = true)).

Lemma digit_bounds c :
  is_digit c = true -> (48 <= nat_of_ascii c <= 57)%nat.
Proof.
  unfold is_digit. intros H. apply andb_true_iff in H as [H1 H2].
  apply Nat.leb_le in H1, H2. lia.
Qed.

Lemma digit_value_decimal c :
  is_digit c = true ->
  PyInt.digit_value c = Some (Z.of_nat (nat_of_ascii c) - 48)%Z.
Proof. intros H. unfold PyInt.digit_value. unfold is_digit in H. now rewrite H. Qed.

Lemma scan_decimal l :
  forall prev acc count,
    decimal l -> PyInt.is_underscore prev = false ->
    PyInt.scan_digits 10 prev l acc count
    = Some (value l acc, (count + length l)%nat, []).
Proof.
  induction l as [|c r IH]; intros prev acc count Hl Hprev.
  - cbn [PyInt.scan_digits]. rewrite Hprev. cbn. now rewrite Nat.add_0_r.
  - inversion Hl as [|? ? Hc Hr]; subst.
    destruct (NumberCases.digit_kind c Hc) as (_ & Hu & _).
    pose proof (digit_bounds c Hc) as Hb.
    cbn [PyInt.scan_digits]. rewrite Hu, (digit_value_decimal c Hc).
    replace (Z.of_nat (nat_of_ascii c) - 48 <? 10)%Z with true
      by (symmetry; apply Z.ltb_lt; lia).
    rewrite (IH (Some c) _ _ Hr Hu). cbn [fold_left length].
    do 3 f_equal. lia.
Qed.

(** [int] on a non-empty string of decimal digits that is within the
    digit limit. *)
Lemma int_decimal limit s :
  s <> "" -> decimal (chars s) ->
  limit = O \/ (String.length s <= limit)%nat ->
  PyInt.int limit 10 s = Some (value (chars s) 0%Z).
Proof.
  intros Hne Hl Hlim.
  assert (Hlen : length (chars s) = String.length s).
  { clear. induction s as [|c r IH]; simpl; [reflexivity | now f_equal]. }
  unfold PyInt.int.
  destruct (chars s) as [|c r] eqn:Hs.
  { destruct s; [now destruct Hne | discriminate Hs]. }
  inversion Hl as [|? ? Hc Hr]; subst.
  destruct (NumberCases.digit_kind c Hc) as (_ & Hu & Hm & Hp).
  rewrite (NumberCases.lstrip_digit c r Hc).
  unfold PyFloat.take_sign. rewrite Hm, Hp.
  assert (Hpre : PyInt.strip_prefix 10 (c :: r) = c :: r).
  { unfold PyInt.strip_prefix. destruct r as [|x r']; [reflexivity|].
    cbn [Z.eqb Pos.eqb andb orb]. now rewrite andb_false_r. }
  rewrite Hpre, Hu.
  rewrite (scan_decimal (c :: r) None 0%Z O Hl eq_refl).
  cbn [Nat.add]. rewrite Hlen.
  replace (Nat.eqb (String.length s) 0) with false
    by (destruct s; [now destruct Hne | reflexivity]).
  replace (negb (PyInt.power_of_two 10) && Nat.ltb 0 limit
           && Nat.ltb limit (String.length s))%bool with false.
  - reflexivity.
  - symmetry. destruct Hlim as [-> | Hle]; [reflexivity|].
    apply andb_false_iff. right. apply Nat.ltb_ge. exact Hle.
Qed.

Lemma digit_char_code d :
  (0 <= d < 10)%Z ->
  is_digit (digit_char d) = true
  /\ (Z.of_nat (nat_of_ascii (digit_char d)) - 48 = d)%Z.
Proof.
  intros Hd.
  assert (Hcases : (d = 0 \/ d = 1 \/ d = 2 \/ d = 3 \/ d = 4 \/ d = 5
                    \/ d = 6 \/ d = 7 \/ d = 8 \/ d = 9)%Z) by lia.
  repeat (destruct Hcases as [-> | Hcases]); try subst d; split; reflexivity.
Qed.

Lemma pos_digits_decimal fuel :
  forall n acc, decimal (chars acc) -> decimal (chars (pos_digits fuel n acc)).
Proof.
  induction fuel as [|f IH]; intros n acc Hacc; [exact Hacc|].
  cbn [pos_digits].
  assert (Hd : decimal (chars (String (digit_char (n mod 10)) acc))).
  { constructor; [|exact Hacc].
    apply digit_char_code, Z.mod_pos_bound. lia. }
  destruct (n <? 10)%Z; [exact Hd | now apply IH].
Qed.

Lemma pos_digits_nonempty fuel :
  forall n acc, acc <> "" -> pos_digits fuel n acc <> "".
Proof.
  induction fuel as [|f IH]; intros n acc Hacc; [exact Hacc|].
  cbn [pos_digits]. destruct (n <? 10)%Z; [discriminate|].
  apply IH. discriminate.
Qed.

(** The digits [pos_digits] puts in front of [acc] denote [n]. *)
Lemma pos_digits_value fuel :
  forall n acc,
    (0 <= n < 10 ^ Z.of_nat (S fuel))%Z ->
    exists k, (0 <= k)%Z /\
      forall a,
        value (chars (pos_digits (S fuel) n acc)) a
        = value (chars acc) (a * 10 ^ k + n)%Z.
Proof.
  induction fuel as [|f IH]; intros n acc Hn.
  - exists 1%Z. split; [lia|]. intros a.
    assert (Hlt : (n < 10)%Z) by (change (10 ^ Z.of_nat 1)%Z with 10%Z in Hn; lia).
    cbn [pos_digits].
    destruct (n <? 10)%Z;
      change (chars (String (digit_char (n mod 10)) acc))
        with (digit_char (n mod 10) :: chars acc);
      cbn [fold_left];
      destruct (digit_char_code (n mod 10)) as [_ ->];
      try (apply Z.mod_pos_bound; lia);
      rewrite Z.mod_small by lia; f_equal; lia.
  - cbn [pos_digits].
    destruct (n <? 10)%Z eqn:Hlt.
    + apply Z.ltb_lt in Hlt. exists 1%Z. split; [lia|]. intros a.
      change (chars (String (digit_char (n mod 10)) acc))
        with (digit_char (n mod 10) :: chars acc).
      cbn [fold_left].
      destruct (digit_char_code (n mod 10)) as [_ ->];
        [apply Z.mod_pos_bound; lia|].
      rewrite Z.mod_small by lia. f_equal; lia.
    + apply Z.ltb_ge in Hlt.
      assert (Hdiv : (0 <= n / 10 < 10 ^ Z.of_nat (S f))%Z).
      { split; [apply Z.div_pos; lia|].
        apply Z.div_lt_upper_bound; [lia|].
        rewrite (Nat2Z.inj_succ (S f)), Z.pow_succ_r in Hn by lia. lia. }
      destruct (IH (n / 10)%Z (String (digit_char (n mod 10)) acc) Hdiv)
        as (k & Hk & Hval).
      exists (k + 1)%Z. split; [lia|]. intros a.
      fold (pos_digits (S f)). rewrite Hval.
      change (chars (String (digit_char (n mod 10)) acc))
        with (digit_char (n mod 10) :: chars acc).
      cbn [fold_left].
      destruct (digit_char_code (n mod 10)) as [_ ->];
        [apply Z.mod_pos_bound; lia|].
      f_equal. rewrite Z.pow_add_r by lia.
      pose proof (Z.div_mod n 10). lia.
Qed.

Lemma log2_fuel n :
  (0 <= n)%Z -> (n < 10 ^ Z.of_nat (S (Z.to_nat (Z.log2 n))))%Z.
Proof.
  intros Hn. rewrite Nat2Z.inj_succ, Z2Nat.id by apply Z.log2_nonneg.
  destruct (Z.eq_dec n 0) as [->|Hz]; [reflexivity|].
  apply Z.lt_le_trans with (2 ^ Z.succ (Z.log2 n))%Z.
  - apply Z.log2_spec. lia.
  - apply Z.pow_le_mono_l. pose proof (Z.log2_nonneg n). lia.
Qed.

(** [int] reads back what [str] writes, for a natural number within the
    digit limit. *)
Lemma int_str limit n :
  (0 <= n)%Z ->
  limit = O \/ (String.length (str_of_int n) <= limit)%nat ->
  str_of_int n <> ""
  /\ decimal (chars (str_of_int n))
  /\ PyInt.int limit 10 (str_of_int n) = Some n.
Proof.
  intros Hn Hlim.
  assert (Hstr : str_of_int n = str_of_nonneg n).
  { unfold str_of_int. now replace (n <? 0)%Z with false
      by (symmetry; apply Z.ltb_ge; lia). }
  rewrite Hstr in *. unfold str_of_nonneg in *.
  assert (Hne : pos_digits (S (Z.to_nat (Z.log2 n))) n "" <> "").
  { cbn [pos_digits]. destruct (n <? 10)%Z; [discriminate|].
    apply pos_digits_nonempty. discriminate. }
  assert (Hdec : decimal (chars (pos_digits (S (Z.to_nat (Z.log2 n))) n "")))
    by (apply pos_digits_decimal; constructor).
  split; [exact Hne | split; [exact Hdec|]].
  rewrite (int_decimal limit _ Hne Hdec Hlim). f_equal.
  destruct (pos_digits_value (Z.to_nat (Z.log2 n)) n ""
              (conj Hn (log2_fuel n Hn))) as (k & _ & Hval).
  rewrite Hval. cbn. lia.
Qed.

Lemma split_from_append sep x :
  forall cur s,
    occurs sep x = false ->
    split_from sep cur (x +:+ s) = split_from sep (cur +:+ x) s.
Proof.
  induction x as [|c r IH]; intros cur s Hx.
  - assert (Hc : cur +:+ "" = cur).
    { clear. induction cur as [|a cur IH]; [reflexivity|].
      change (String a (cur +:+ "") = String a cur). now f_equal. }
    now rewrite Hc.
  - cbn [occurs] in Hx. apply orb_false_iff in Hx as [Hc Hr].
    change (String c r +:+ s) with (String c (r +:+ s)).
    cbn [split_from]. rewrite Ascii.eqb_sym, Hc, (IH _ _ Hr).
    now rewrite PathFacts.append_snoc.
Qed.

Lemma split_join sep strs :
  forall x cur,
    Forall (fun s => occurs sep s = false) (x :: strs) ->
    split_from sep cur (join (String sep "") (x :: strs))
    = (cur +:+ x) :: strs.
Proof.
  induction strs as [|y r IH]; intros x cur Hall;
    inversion Hall as [|? ? Hx Hrest]; subst.
  - unfold join. cbn [PyPath.join_with].
    assert (Hx0 : x = x +:+ "").
    { clear. induction x as [|a x IH]; [reflexivity|].
      change (String a x = String a (x +:+ "")). now f_equal. }
    rewrite Hx0 at 1. rewrite (split_from_append sep x cur "" Hx).
    reflexivity.
  - unfold join in *.
    change (PyPath.join_with (String sep "") (x :: y :: r))
      with (x +:+ String sep (PyPath.join_with (String sep "") (y :: r))).
    rewrite (split_from_append sep x cur _ Hx).
    cbn [split_from]. rewrite Ascii.eqb_refl.
    now rewrite (IH y "" Hrest).
Qed.

Lemma decimal_no_dot s : decimal (chars s) -> occurs "." s = false.
Proof.
  induction s as [|c r IH]; intros H; [reflexivity|].
  inversion H as [|? ? Hc Hr]; subst. cbn [occurs].
  destruct (PathFacts.digit_facts c Hc) as [_ Hdot].
  now rewrite Ascii.eqb_sym, Hdot, IH.
Qed.

Lemma ints_str limit ns :
  Forall (fun n => (0 <= n)%Z
                   /\ (limit = O
                       \/ (String.length (str_of_int n) <= limit)%nat)) ns ->
  ints limit (map str_of_int ns) = Ok ns.
Proof.
  induction 1 as [|n r [Hn Hlim] Hr IH]; [reflexivity|].
  cbn [map ints].
  destruct (int_str limit n Hn Hlim) as (_ & _ & ->). now rewrite IH.
Qed.

(** X26: [parse_version] reads back a version as it is usually written:
    for a non-empty list of natural numbers, each within the digit limit
    of [int], their decimal writings joined by dots, with or without a
    leading [v], parse to that list. *)
Theorem parse_version_round_trip limit n ns :
  Forall (fun n => (0 <= n)%Z
                   /\ (limit = O
                       \/ (String.length (str_of_int n) <= limit)%nat))
         (n :: ns) ->
  let text := join "." (map str_of_int (n :: ns)) in
  parse_one limit ("v" +:+ text) = Ok (n :: ns)
  /\ parse_one limit text = Ok (n :: ns).
Proof.
  intros Hall text.
  assert (Hdots : Forall (fun s => occurs "." s = false)
                    (map str_of_int (n :: ns))).
  { apply Forall_map. eapply Forall_impl; [exact Hall|]. cbn.
    intros m [Hm Hl]. apply decimal_no_dot.
    now destruct (int_str limit m Hm Hl) as (_ & Hd & _). }
  inversion Hall as [|? ? [Hn Hlim] Hrest]; subst.
  destruct (int_str limit n Hn Hlim) as (Hne & Hdec & _).
  assert (Hhead : exists c t, text = String c t /\ occurs c "v" = false).
  { subst text. cbn [map]. unfold join.
    destruct (str_of_int n) as [|c r] eqn:Hs; [now destruct Hne|].
    inversion Hdec as [|? ? Hc _]; subst.
    exists c.
    assert (Hv : occurs c "v" = false).
    { cbn [occurs]. rewrite orb_false_r.
      pose proof (digit_bounds c Hc) as Hb.
      destruct (Ascii.eqb c "v") eqn:He; [|reflexivity].
      apply Ascii.eqb_eq in He. subst c. vm_compute in Hb. lia. }
    destruct (map str_of_int ns) as [|y l].
    - exists r. split; [reflexivity | exact Hv].
    - exists (r +:+ "." +:+ PyPath.join_with "." (y :: l)).
      split; [reflexivity | exact Hv]. }
  destruct Hhead as (c & t & Htext & Hv).
  assert (Hplain : parse_one limit text = Ok (n :: ns)).
  { unfold parse_one. rewrite Htext. cbn [lstrip_chars]. rewrite Hv.
    rewrite <- Htext. subst text. unfold split.
    cbn [map] in *. rewrite (split_join "." _ _ "" Hdots).
    change ("" +:+ str_of_int n) with (str_of_int n).
    exact (ints_str limit (n :: ns) Hall). }
  split; [|exact Hplain].
  rewrite <- Hplain. unfold parse_one.
  change (lstrip_chars "v" ("v" +:+ text)) with (lstrip_chars "v" text).
  reflexivity.
Qed.

Lemma ints_refuses limit l :
  (exists x, In x l /\ PyInt.int limit 10 x = None) ->
  ints limit l = Raise ValueError.
Proof.
  induction l as [|y r IH]; intros (x & Hin & Hx); [destruct Hin|].
  cbn [ints]. destruct (PyInt.int limit 10 y) eqn:Hy; [|reflexivity].
  destruct Hin as [-> | Hin]; [congruence|].
  rewrite IH; [reflexivity | now exists x].
Qed.

(** X27: a version with an empty component (the empty string, a lone
    [v], two dots in a row, a dot at either end) raises [ValueError]. *)
Theorem parse_version_empty_component limit v :
  In "" (split "." (lstrip_chars "v" v)) ->
  parse_one limit v = Raise ValueError.
Proof.
  intros Hin. unfold parse_one. apply ints_refuses.
  exists "". split; [exact Hin | reflexivity].
Qed.

(** X28: the generator of [parse_version] gives one tuple for each
    version, in order, as long as the versions are valid; at the first
    one that is not it raises, and gives nothing for the versions after
    it. *)
Theorem parse_version_stops_at_first_invalid limit vs ts bad e rest :
  Forall2 (fun v t => parse_one limit v = Ok t) vs ts ->
  parse_one limit bad = Raise e ->
  parse_version limit vs = map Ok ts
  /\ parse_version limit (vs ++ bad :: rest) = map Ok ts ++ [Raise e].
Proof.
  intros Hall Hbad. unfold parse_version.
  induction Hall as [|v t vs ts Hv _ [IH1 IH2]].
  - split; [reflexivity|]. cbn [app map until_raise]. now rewrite Hbad.
  - cbn [app map until_raise]. rewrite Hv, IH1, IH2. split; reflexivity.
Qed.

End VersionCases.

(** ** The range of a colour channel *)

Module ChannelRange.
Import PyStr PyText.

Lemma every_ascii c : In c (map ascii_of_nat (seq 0 256)).
Proof.
  rewrite <- (ascii_nat_embedding c). apply List.in_map, List.in_seq.
  pose proof (nat_ascii_bounded c). lia.
Qed.

Lemma int_two_chars_range a b v :
  PyInt.int 0 16 (String a (String b "")) = Some v -> (-15 <= v <= 255)%Z.
Proof.
  assert (Hall :
    forallb (fun a =>
      forallb (fun b =>
        match PyInt.int 0 16 (String a (String b "")) with
        | Some v => ((-15 <=? v) && (v <=? 255))%Z%bool
        | None => true
        end) (map ascii_of_nat (seq 0 256)))
      (map ascii_of_nat (seq 0 256)) = true)
    by (vm_compute; reflexivity).
  rewrite List.forallb_forall in Hall.
  specialize (Hall a (every_ascii a)).
  rewrite List.forallb_forall in Hall.
  specialize (Hall b (every_ascii b)).
  intros Hv. rewrite Hv in Hall.
  apply andb_true_iff in Hall as [H1 H2].
  apply Z.leb_le in H1, H2. lia.
Qed.

Lemma int_one_char_range a v :
  PyInt.int 0 16 (String a "") = Some v -> (-15 <= v <= 255)%Z.
Proof.
  assert (Hall :
    forallb (fun a =>
      match PyInt.int 0 16 (String a "") with
      | Some v => ((-15 <=? v) && (v <=? 255))%Z%bool
      | None => true
      end) (map ascii_of_nat (seq 0 256)) = true)
    by (vm_compute; reflexivity).
  rewrite List.forallb_forall in Hall.
  specialize (Hall a (every_ascii a)).
  intros Hv. rewrite Hv in Hall.
  apply andb_true_iff in Hall as [H1 H2].
  apply Z.leb_le in H1, H2. lia.
Qed.

Lemma int_slice_range i s v :
  PyInt.int 0 16 (slice i (i + 2) s) = Some v -> (-15 <= v <= 255)%Z.
Proof.
  unfold slice. replace (i + 2 - i)%nat with 2%nat by lia.
  destruct (drop_str i s) as [|a [|b r]]; cbn [take_str].
  - intros H. discriminate H.
  - apply int_one_char_range.
  - apply int_two_chars_range.
Qed.

(** X29: whatever the input, a channel [hex_to_rgb] returns lies between
    -15 and 255: [int] accepts a sign in a slice, so a channel can be
    negative, and two characters cannot denote more than 255. *)
Theorem hex_to_rgb_channel_range hex_val r g b :
  hex_to_rgb hex_val = Ok (r, g, b) ->
  (-15 <= r <= 255)%Z /\ (-15 <= g <= 255)%Z /\ (-15 <= b <= 255)%Z.
Proof.
  unfold hex_to_rgb.
  destruct (PyInt.int 0 16 (slice 0 2 _)) as [r'|] eqn:Hr;
    [|intros H; discriminate H].
  destruct (PyInt.int 0 16 (slice 2 4 _)) as [g'|] eqn:Hg;
    [|intros H; discriminate H].
  destruct (PyInt.int 0 16 (slice 4 6 _)) as [b'|] eqn:Hb;
    intros H; [|discriminate H].
  injection H as <- <- <-.
  repeat split;
    first [ apply (int_slice_range 0 _ _ Hr)
          | apply (int_slice_range 2 _ _ Hg)
          | apply (int_slice_range 4 _ _ Hb) ].
Qed.

End ChannelRange.

(** ** The further statements at concrete inputs *)

Module MoreInstances.
Import Demo Cases.


Lemma unknown_user_raises_42 :
  fetch_avatar_url unknown_user 3 "42" "tok" 128 start
  = (Raise (UnknownUserError "42" unknown_user_body),
     after_get (lookup_url "42") (lookup_headers "tok") 10 start).
Proof.
  apply (unknown_user_raises unknown_user 3 "42" "tok" 128 start
           unknown_user_body "Unknown User");
    vm_compute; reflexivity.
Defined.

Lemma other_message_raises_api_error_42 :
  fetch_avatar_url missing_access 3 "42" "tok" 128 start
  = (Raise (DiscordAPIError "tok" missing_access_body),
     after_get (lookup_url "42") (lookup_headers "tok") 10 start).
Proof.
  apply (other_message_raises_api_error missing_access 3 "42" "tok" 128
           start missing_access_body "Missing Access");
    vm_compute; reflexivity.
Defined.

Lemma read_timeout_is_connection_error :
  fetch_avatar_url slow 3 "42" "tok" 128 start
  = (Raise ConnectionError,
     after_get (lookup_url "42") (lookup_headers "tok") 10 start).
Proof.
  apply (transport_failure_is_connection_error slow 3 "42" "tok" 128 start
           RequestsReadTimeout);
    vm_compute; reflexivity.
Defined.

Lemma link_means_single_request_42 :
  after_get (lookup_url "42") (lookup_headers "tok") 10 start
  = after_get (lookup_url "42") (lookup_headers "tok") 10 start
  /\ exists body h,
       api all_fine (sent start) (lookup_url "42") (lookup_headers "tok")
         = Response (Ok body)
       /\ body !! "avatar" = Some h
       /\ link_42 = avatar_link all_fine "42" h 128.
Proof.
  apply (link_means_single_request all_fine 3 "42" "tok" 128 start link_42
           (after_get (lookup_url "42") (lookup_headers "tok") 10 start)).
  vm_compute. reflexivity.
Defined.


Lemma negative_retry_after_no_retry :
  fetch_avatar_url negative_delay 3 "42" "tok" 128 start
  = (Raise ValueError,
     after_get (lookup_url "42") (lookup_headers "tok") 10 start)
  /\ fetch_avatar_url huge_delay 3 "42" "tok" 128 start
     = (Raise OverflowError,
        after_get (lookup_url "42") (lookup_headers "tok") 10 start)
  /\ fetch_avatar_url no_delay 3 "42" "tok" 128 start
     = (Raise (KeyError "retry_after"),
        after_get (lookup_url "42") (lookup_headers "tok") 10 start).
Proof.
  split; [| split].
  - refine (unusable_retry_after_no_retry negative_delay 3 "42" "tok" 128
              start negative_delay_body "You are being rate limited."
              _ _ _ _ _ _ _);
      first [ vm_compute; reflexivity
            | right; right; split; unfold Qle, Qlt; simpl; lia ].
  - refine (unusable_retry_after_no_retry huge_delay 3 "42" "tok" 128
              start huge_delay_body "You are being rate limited."
              _ _ _ _ _ _ _);
      first [ vm_compute; reflexivity
            | right; left; unfold Qlt; simpl; lia ].
  - refine (unusable_retry_after_no_retry no_delay 3 "42" "tok" 128
              start no_delay_body "You are being rate limited."
              _ _ _ _ _ _ _);
      first [ vm_compute; reflexivity | exact I ].
Defined.

Lemma body_without_message_escapes_42 :
  fetch_avatar_url bare 3 "42" "tok" 128 start
  = (Raise (match bare_body !! "message" with
            | None => KeyError "message"
            | Some _ => AttributeError
            end),
     after_get (lookup_url "42") (lookup_headers "tok") 10 start).
Proof.
  apply (body_without_message_escapes bare 3 "42" "tok" 128 start bare_body);
    first [ intros m H; vm_compute in H; discriminate H
          | vm_compute; reflexivity ].
Defined.

Lemma download_writes_entry_42 :
  let s1 := snd (fetch_avatar_url all_fine 3 "42" "tok" 128 (paced start)) in
  let r := download_avatar all_fine main_dir avatar_dir 3 "42" "tok" 128
             start in
  fst r = Ok tt
  /\ fs (snd r)
     = <[PyPath.to_str base_path := (fun im : list byte => im) png_bytes]>
         (fs start)
  /\ sent (snd r) = S (sent s1).
Proof.
  apply (download_writes_entry all_fine main_dir avatar_dir 3 "42" "tok" 128
           start link_42
           (snd (fetch_avatar_url all_fine 3 "42" "tok" 128 (paced start)))
           x89 [x50; x4e; x47] png_bytes base_path (fun im => im));
    vm_compute; reflexivity.
Defined.

Lemma download_unwritable_is_silent_42 :
  let r := download_avatar read_only_disk main_dir avatar_dir 3 "42" "tok"
             128 start in
  fst r = Ok tt /\ fs (snd r) = fs start.
Proof.
  apply (download_unwritable_is_silent read_only_disk main_dir avatar_dir 3
           "42" "tok" 128 start link_42
           (snd (fetch_avatar_url read_only_disk 3 "42" "tok" 128
                   (paced start)))
           x89 [x50; x4e; x47] png_bytes base_path (fun im => im));
    vm_compute; reflexivity.
Defined.

Lemma cdn_failure_is_reported_42 :
  let s1 := snd (fetch_avatar_url cdn_down 3 "42" "tok" 128 (paced start)) in
  download_avatar cdn_down main_dir avatar_dir 3 "42" "tok" 128 start
  = (Raise (match URLError with
            | URLError => ConnectionError
            | e => e
            end),
     count_request
       (record (EvUrlopen link_42 cdn_headers 10)
          (record (EvPrint (cursor_up_clear +:+ link_42)) s1)))
  /\ fs s1 = fs start.
Proof.
  apply (cdn_failure_is_reported cdn_down main_dir avatar_dir 3 "42" "tok"
           128 start link_42
           (snd (fetch_avatar_url cdn_down 3 "42" "tok" 128 (paced start)))
           URLError);
    vm_compute; reflexivity.
Defined.

Lemma invalid_token_passes_through :
  let s1 :=
    snd (fetch_avatar_url token_revoked 3 "42" "tok" 128 (paced start)) in
  download_avatar token_revoked main_dir avatar_dir 3 "42" "tok" 128 start
  = (Raise (match InvalidTokenError "tok" unauthorized_body with
            | URLError => ConnectionError
            | e => e
            end), s1)
  /\ quiet start s1.
Proof.
  apply (resolver_failure_passes_through token_revoked main_dir avatar_dir 3
           "42" "tok" 128 start
           (InvalidTokenError "tok" unauthorized_body)).
  vm_compute. reflexivity.
Defined.


Lemma cache_path_is_in_avatar_dir_12 :
  get_avatar_dir main_dir avatar_dir (Some "42") None 12
  = Ok (PyPath.mkPath (PyPath.anchor avatar_dir)
          (PyPath.parts avatar_dir
           ++ [PyStr.str_of_int 12 +:+ "_" +:+ "42" +:+ ".png"])).
Proof.
  apply (PathCases.cache_path_is_in_avatar_dir main_dir avatar_dir "42" 12);
    first [ vm_compute; reflexivity | vm_compute; reflexivity ].
Defined.

Lemma grayscale_is_written_42 :
  let r := artistic_effect studio main_dir avatar_dir base_path 1 cached in
  fst r = Ok grey_path
  /\ fs (snd r)
     = <[PyPath.to_str grey_path
         := (fun im : list byte => im) (bgr2gray studio png_bytes)]>
         (fs cached).
Proof.
  apply (grayscale_is_written studio main_dir avatar_dir base_path cached
           png_bytes png_bytes grey_path (fun im => im));
    vm_compute; reflexivity.
Defined.

Lemma missing_entry_raises :
  exists e,
    artistic_effect studio main_dir avatar_dir base_path 1 start
    = (Raise e, record (EvImread (PyPath.to_str base_path)) start)
    /\ (e = Cv2Error \/ e = ValueError).
Proof.
  apply (unreadable_entry_raises studio main_dir avatar_dir base_path 1
           start);
    first [ discriminate | vm_compute; exact I ].
Defined.

Lemma effect_keeps_source_42 :
  fs (snd (artistic_effect studio main_dir avatar_dir base_path 1 cached))
    !! PyPath.to_str base_path
  = fs cached !! PyPath.to_str base_path.
Proof.
  apply (effect_keeps_source studio main_dir avatar_dir "42" 0 1 base_path
           cached);
    first [ lia | discriminate | vm_compute; reflexivity ].
Defined.

Lemma snowflake_passes_the_check :
  is_number "1010885414850154587" = true.
Proof.
  apply (NumberCases.digits_pass_the_check "1010885414850154587");
    [discriminate | repeat constructor].
Defined.

Lemma spaces_fail_the_check : is_number "   " = false.
Proof.
  apply (NumberCases.blank_fails_the_check "   "). repeat constructor.
Defined.

Lemma latest_version_fields_3_11_1 :
  exists tag summary,
    fetch_latest_version Releases.github start
    = (Ok (tag, summary), after_get latest_release_api [] 3 start)
    /\ (exists k, "v3.11.1" = PyText.times "v" k +:+ tag)
    /\ String.prefix "v" tag = false
    /\ PyText.occurs PyText.newline summary = false
    /\ exists rest,
         "Faster avatars" +:+ String PyText.newline "More details."
         = summary +:+ rest
         /\ (rest = "" \/ exists r, rest = String PyText.newline r).
Proof.
  apply (ReleaseCases.latest_version_fields Releases.github start
           Releases.release_body "v3.11.1"
           ("Faster avatars" +:+ String PyText.newline "More details."));
    vm_compute; reflexivity.
Defined.

Lemma hex_to_rgb_round_trip_ff00aa :
  hex_to_rgb ("#" +:+ two_hex 255 +:+ two_hex 0 +:+ two_hex 170)
  = Ok (255, 0, 170)%Z
  /\ hex_to_rgb (two_hex 255 +:+ two_hex 0 +:+ two_hex 170)
     = Ok (255, 0, 170)%Z.
Proof. apply (ColourCases.hex_to_rgb_round_trip 255 0 170); lia. Defined.

Lemma hex_to_rgb_short_fff : hex_to_rgb "#fff" = Raise ValueError.
Proof.
  apply (ColourCases.hex_to_rgb_short_input "#fff"). vm_compute. lia.
Defined.

Lemma hex_to_rgb_ignores_alpha :
  hex_to_rgb ("#ff00aa" +:+ "99") = hex_to_rgb "#ff00aa".
Proof.
  apply (ColourCases.hex_to_rgb_ignores_the_rest "#ff00aa" "99").
  vm_compute. lia.
Defined.

Lemma hex_to_rgb_negative_channel :
  (-15 <= -15 <= 255)%Z /\ (-15 <= 15 <= 255)%Z /\ (-15 <= 255 <= 255)%Z.
Proof.
  apply (ChannelRange.hex_to_rgb_channel_range "#-f+fff" (-15) 15 255).
  vm_compute. reflexivity.
Defined.

Lemma parse_version_round_trip_3_11_1 :
  let text := PyText.join "." (map PyStr.str_of_int [3; 11; 1]%Z) in
  parse_one 4300 ("v" +:+ text) = Ok [3; 11; 1]%Z
  /\ parse_one 4300 text = Ok [3; 11; 1]%Z.
Proof.
  apply (VersionCases.parse_version_round_trip 4300 3 [11; 1]%Z).
  repeat constructor; first [ lia | right; vm_compute; lia ].
Defined.

Lemma parse_version_two_dots : parse_one 4300 "1..2" = Raise ValueError.
Proof.
  apply (VersionCases.parse_version_empty_component 4300 "1..2").
  vm_compute. tauto.
Defined.

Lemma parse_version_stops_at_beta :
  parse_version 4300 ["v3.11"; "v3.10"] = map Ok [[3; 11]; [3; 10]]%Z
  /\ parse_version 4300 (["v3.11"; "v3.10"] ++ "beta" :: ["v3.9"])
     = map Ok [[3; 11]; [3; 10]]%Z ++ [Raise ValueError].
Proof.
  apply (VersionCases.parse_version_stops_at_first_invalid 4300
           ["v3.11"; "v3.10"] [[3; 11]; [3; 10]]%Z "beta" ValueError
           ["v3.9"]);
    [repeat constructor | vm_compute; reflexivity].
Defined.

End MoreInstances.
